(** * BananaBrand: prompt construction and response extraction

    A shallow embedding of [src/services/geminiService.ts] and of the two
    request handlers of [src/App.tsx], with the properties the specification
    states about them.

    Conventions.
    - A JavaScript string is a [string]; one [ascii] stands for one code
      unit below 256.
    - A property that may be missing ([x?: T], or a value that is
      [undefined]) is an [option]; [None] is [undefined].
    - A function that may throw returns a [result]: [Ok v] or [Throw e].
    - The one asynchronous call, [ai.models.generateContent], is a
      parameter that maps the request to the way the promise settles. *)

From Stdlib Require Import Bool Ascii String List Arith Lia.
Import ListNotations.
Local Open Scope string_scope.

(** ** JavaScript strings *)

Module JS.

(** The line terminator of the template literals (the file has LF ends). *)
Definition LF : string := String (ascii_of_nat 10) "".

(** WhiteSpace and LineTerminator code units below 256:
    TAB, LF, VT, FF, CR, SP and NBSP. *)
Definition isWhiteSpace (c : ascii) : bool :=
  match nat_of_ascii c with
  | 9 | 10 | 11 | 12 | 13 | 32 | 160 => true
  | _ => false
  end.

(** [String.prototype.trimStart]. *)
Fixpoint trimStart (s : string) : string :=
  match s with
  | "" => ""
  | String c s' => if isWhiteSpace c then trimStart s' else s
  end.

(** [String.prototype.trimEnd]. *)
Fixpoint trimEnd (s : string) : string :=
  match s with
  | "" => ""
  | String c s' =>
      match trimEnd s' with
      | "" => if isWhiteSpace c then "" else String c ""
      | r => String c r
      end
  end.

(** [String.prototype.trim]. *)
Definition trim (s : string) : string := trimEnd (trimStart s).

(** [String.prototype.startsWith]. *)
Fixpoint startsWith (s searchString : string) : bool :=
  match searchString, s with
  | "", _ => true
  | String _ _, "" => false
  | String a p, String b r => Ascii.eqb a b && startsWith r p
  end.

(** [String.prototype.includes]. *)
Fixpoint includes (s searchString : string) : bool :=
  startsWith s searchString ||
  match s with
  | "" => false
  | String _ r => includes r searchString
  end.

(** [Array.prototype.join] on an array of strings. *)
Fixpoint join (l : list string) (separator : string) : string :=
  match l with
  | [] => ""
  | [x] => x
  | x :: rest => x ++ separator ++ join rest separator
  end.

(** ToBoolean on a value that is a string or [undefined]. *)
Definition truthy (v : option string) : bool :=
  match v with
  | None | Some "" => false
  | Some _ => true
  end.

(** ToString on a value that is a string or [undefined], as a template
    literal and [+] apply it. *)
Definition ToString (v : option string) : string :=
  match v with
  | Some s => s
  | None => "undefined"
  end.

(** [a || b] where [a] is a string or [undefined] and [b] a string. *)
Definition or_else (a : option string) (b : string) : string :=
  match a with
  | None | Some "" => b
  | Some s => s
  end.

(** What a [throw] carries: [new Error(message)], or the TypeError the
    engine raises on a property read of [undefined] or on iterating a
    value that is not iterable (its message is the engine's). *)
Inductive exn : Type :=
| Error (message : string)
| TypeError (message : string).

Definition message (e : exn) : string :=
  match e with
  | Error m | TypeError m => m
  end.

Inductive result (A : Type) : Type :=
| Ok (value : A)
| Throw (e : exn).
Arguments Ok {A} value.
Arguments Throw {A} e.

(** [try { body } catch (error) { handler }]. *)
Definition try_catch {A} (body : result A) (handler : exn -> result A)
  : result A :=
  match body with
  | Ok v => Ok v
  | Throw e => handler e
  end.

(** How a promise settles. *)
Inductive settled (A : Type) : Type :=
| Fulfilled (value : A)
| Rejected (reason : exn).
Arguments Fulfilled {A} value.
Arguments Rejected {A} reason.

(** [await p] inside a function that may throw. *)
Definition await {A} (p : settled A) : result A :=
  match p with
  | Fulfilled v => Ok v
  | Rejected e => Throw e
  end.

Definition bind {A B} (m : result A) (k : A -> result B) : result B :=
  match m with
  | Ok v => k v
  | Throw e => Throw e
  end.

End JS.

Import JS.

Notation "'let!' x ':=' m 'in' k" := (JS.bind m (fun x => k))
  (at level 10, x name, m at level 100, k at level 200).

(** ** Data model: [src/types.ts] *)

Module BrandColor.
Record t := mk { name : string; colors : list string; id : string }.
End BrandColor.

Module VisualStyle.
Record t := mk { name : string; description : string; id : string }.
End VisualStyle.

Module GraphicType.
Record t := mk { name : string; id : string }.
End GraphicType.

Module GenerationConfig.
Record t := mk {
  prompt : string;
  colorSchemeId : string;
  visualStyleId : string;
  graphicTypeId : string;
  aspectRatio : string
}.
End GenerationConfig.

(** [base64Data] is declared a string; at run time it is whatever
    [inlineData.data] was, which the SDK declares optional. *)
Module GeneratedImage.
Record t := mk {
  imageUrl : string;
  base64Data : option string;
  mimeType : string
}.
End GeneratedImage.

Module GenerationContext.
Record t := mk {
  brandColors : list BrandColor.t;
  visualStyles : list VisualStyle.t;
  graphicTypes : list GraphicType.t
}.
End GenerationContext.

(** ** The reply of the API

    [extractImageFromResponse] takes [response: any]; the value it is given
    is the SDK's GenerateContentResponse, of which it reads
    [candidates?], [content?], [parts?], [inlineData?], [text?], [data?] and
    [mimeType?]. *)

Module Blob.
Record t := mk { data : option string; mimeType : option string }.
End Blob.

Module Part.
Record t := mk { inlineData : option Blob.t; text : option string }.
End Part.

Module Content.
Record t := mk { parts : option (list Part.t) }.
End Content.

Module Candidate.
Record t := mk { content : option Content.t }.
End Candidate.

Module GenerateContentResponse.
Record t := mk { candidates : option (list Candidate.t) }.
End GenerateContentResponse.

(** The request handed to [ai.models.generateContent]. *)
Module GenerateContentParameters.
Record t := mk {
  model : string;
  contents_parts : list Part.t;
  config_imageConfig_aspectRatio : string
}.
End GenerateContentParameters.

(** ** [src/services/geminiService.ts] *)

Definition NANO_BANANA_MODEL : string := "gemini-2.5-flash-image".

(** The template literal of [constructFullPrompt], before [.trim()]. *)
Definition fullPromptTemplate (typeName styleDesc colors prompt : string)
  : string :=
  LF ++ "    Create a " ++ typeName ++ "." ++
  LF ++ "    Visual Style: " ++ styleDesc ++ "." ++
  LF ++ "    Color Palette: Strictly use these colors: " ++ colors ++ "." ++
  LF ++ "    " ++
  LF ++ "    Content Request: " ++ prompt ++
  LF ++ "    " ++
  LF ++ "    Ensure the output is high quality and adheres to the style constraints." ++
  LF ++ "  ".

(** The constants [colorScheme], [style] and [type]: [Array.prototype.find]
    with the callback [x => x.id === id]. *)
Definition findBrandColor (id : string) (brandColors : list BrandColor.t) :=
  find (fun c => BrandColor.id c =? id) brandColors.
Definition findVisualStyle (id : string) (visualStyles : list VisualStyle.t) :=
  find (fun s => VisualStyle.id s =? id) visualStyles.
Definition findGraphicType (id : string) (graphicTypes : list GraphicType.t) :=
  find (fun t => GraphicType.id t =? id) graphicTypes.

(** The constants [colors], [styleDesc] and [typeName] of
    [constructFullPrompt]. *)
Definition constructFullPrompt_colors
  (config : GenerationConfig.t) (context : GenerationContext.t) : string :=
  match findBrandColor (GenerationConfig.colorSchemeId config)
          (GenerationContext.brandColors context) with
  | Some colorScheme => join (BrandColor.colors colorScheme) ", "
  | None => "standard colors"
  end.

Definition constructFullPrompt_styleDesc
  (config : GenerationConfig.t) (context : GenerationContext.t) : string :=
  match findVisualStyle (GenerationConfig.visualStyleId config)
          (GenerationContext.visualStyles context) with
  | Some style => VisualStyle.description style
  | None => "clean style"
  end.

Definition constructFullPrompt_typeName
  (config : GenerationConfig.t) (context : GenerationContext.t) : string :=
  match findGraphicType (GenerationConfig.graphicTypeId config)
          (GenerationContext.graphicTypes context) with
  | Some type => GraphicType.name type
  | None => "image"
  end.

Definition constructFullPrompt
  (config : GenerationConfig.t) (context : GenerationContext.t) : string :=
  let colors := constructFullPrompt_colors config context in
  let styleDesc := constructFullPrompt_styleDesc config context in
  let typeName := constructFullPrompt_typeName config context in
  trim (fullPromptTemplate typeName styleDesc colors
          (GenerationConfig.prompt config)).

(** The loop [for (const part of parts) if (part.inlineData) { imagePart =
    part; break; }], from [imagePart = null]. *)
Fixpoint scanImagePart (parts : list Part.t) : option Part.t :=
  match parts with
  | [] => None
  | part :: rest =>
      match Part.inlineData part with
      | Some _ => Some part
      | None => scanImagePart rest
      end
  end.

Definition extractImageFromResponse (response : GenerateContentResponse.t)
  : result GeneratedImage.t :=
  match GenerateContentResponse.candidates response with
  | None | Some [] => Throw (Error "No candidates returned from API.")
  | Some (candidate0 :: _) =>
      match Candidate.content candidate0 with
      | None =>
          Throw (TypeError "Cannot read properties of undefined (reading 'parts')")
      | Some content =>
          match Content.parts content with
          | None => Throw (TypeError "parts is not iterable")
          | Some parts =>
              match scanImagePart parts with
              | None =>
                  match find (fun p => truthy (Part.text p)) parts with
                  | Some textPart =>
                      Throw (Error ("Model returned text instead of image: "
                                    ++ ToString (Part.text textPart)))
                  | None => Throw (Error "No image data found in response.")
                  end
              | Some imagePart =>
                  match Part.inlineData imagePart with
                  | None =>
                      Throw (TypeError
                        "Cannot read properties of undefined (reading 'data')")
                  | Some inlineData =>
                      let base64Data := Blob.data inlineData in
                      let mimeType :=
                        or_else (Blob.mimeType inlineData) "image/png" in
                      let imageUrl :=
                        "data:" ++ mimeType ++ ";base64," ++ ToString base64Data in
                      Ok (GeneratedImage.mk imageUrl base64Data mimeType)
                  end
              end
          end
      end
  end.

(** The template literal of [refineGraphic], before [.trim()]. *)
Definition fullRefinementPromptTemplate
  (refinementPrompt styleDesc colors : string) : string :=
  LF ++ "    Edit this image." ++
  LF ++ "    Request: " ++ refinementPrompt ++ "." ++
  LF ++ "    Maintain the existing style (" ++ styleDesc ++
        ") and color palette (" ++ colors ++ ")." ++
  LF ++ "  ".

(** The constants [colors] and [styleDesc] of [refineGraphic]. *)
Definition refineGraphic_colors
  (config : GenerationConfig.t) (context : GenerationContext.t) : string :=
  match findBrandColor (GenerationConfig.colorSchemeId config)
          (GenerationContext.brandColors context) with
  | Some colorScheme => join (BrandColor.colors colorScheme) ", "
  | None => ""
  end.

Definition refineGraphic_styleDesc
  (config : GenerationConfig.t) (context : GenerationContext.t) : string :=
  match findVisualStyle (GenerationConfig.visualStyleId config)
          (GenerationContext.visualStyles context) with
  | Some style => VisualStyle.description style
  | None => ""
  end.

(** The constant [fullRefinementPrompt] of [refineGraphic]. *)
Definition fullRefinementPrompt (refinementPrompt : string)
  (config : GenerationConfig.t) (context : GenerationContext.t) : string :=
  let colors := refineGraphic_colors config context in
  let styleDesc := refineGraphic_styleDesc config context in
  trim (fullRefinementPromptTemplate refinementPrompt styleDesc colors).

Section Service.

(** [ai.models.generateContent]: the request, and how its promise
    settles. *)
Variable generateContent :
  GenerateContentParameters.t -> settled GenerateContentResponse.t.

Definition generateGraphic
  (config : GenerationConfig.t) (context : GenerationContext.t)
  : result GeneratedImage.t :=
  let fullPrompt := constructFullPrompt config context in
  try_catch
    (let! response :=
       await (generateContent
                (GenerateContentParameters.mk NANO_BANANA_MODEL
                   [Part.mk None (Some fullPrompt)]
                   (GenerationConfig.aspectRatio config))) in
     extractImageFromResponse response)
    (fun error => Throw (Error "Failed to generate image. Please try again.")).

Definition refineGraphic
  (currentImage : GeneratedImage.t) (refinementPrompt : string)
  (config : GenerationConfig.t) (context : GenerationContext.t)
  : result GeneratedImage.t :=
  let fullRefinementPrompt :=
    fullRefinementPrompt refinementPrompt config context in
  try_catch
    (let! response :=
       await (generateContent
                (GenerateContentParameters.mk NANO_BANANA_MODEL
                   [Part.mk
                      (Some (Blob.mk
                               (GeneratedImage.base64Data currentImage)
                               (Some (GeneratedImage.mimeType currentImage))))
                      None;
                    Part.mk None (Some fullRefinementPrompt)]
                   (GenerationConfig.aspectRatio config))) in
     extractImageFromResponse response)
    (fun error => Throw (Error "Failed to refine image. Please try again.")).

End Service.

(** ** [src/App.tsx]: the three pieces of state the handlers write *)

Module App.

Record state := mk {
  generatedImage : option GeneratedImage.t;
  isGenerating : bool;
  error : option string
}.

Definition setGeneratedImage (v : option GeneratedImage.t) (st : state) :=
  mk v (isGenerating st) (error st).
Definition setIsGenerating (v : bool) (st : state) :=
  mk (generatedImage st) v (error st).
Definition setError (v : option string) (st : state) :=
  mk (generatedImage st) (isGenerating st) v.

Section Handlers.

Variable generateContent :
  GenerateContentParameters.t -> settled GenerateContentResponse.t.
Variable config : GenerationConfig.t.
Variable context : GenerationContext.t.

(** The state while the request is awaited:
    [setIsGenerating(true); setError(null)]. *)
Definition pending (st : state) : state :=
  setError None (setIsGenerating true st).

(** The [try]/[catch]/[finally] once the call has settled; [fallback]
    is the right operand of [err.message || ...]. *)
Definition settle (fallback : string)
  (outcome : result GeneratedImage.t) (st : state) : state :=
  let st :=
    match outcome with
    | Ok result => setGeneratedImage (Some result) st
    | Throw err => setError (Some (or_else (Some (message err)) fallback)) st
    end in
  setIsGenerating false st.

Definition handleGenerate (st : state) : state :=
  settle "An unexpected error occurred."
    (generateGraphic generateContent config context) (pending st).

Definition handleRefine (refinementText : string) (st : state) : state :=
  match generatedImage st with
  | None => st
  | Some currentImage =>
      settle "Failed to refine image."
        (refineGraphic generateContent currentImage refinementText
           config context)
        (pending st)
  end.

End Handlers.

End App.

(** ** The three diagnoses of the extractor, under the specification's names *)

Definition EmptyResponse : exn := Error "No candidates returned from API.".
Definition ModelRefused (text : string) : exn :=
  Error ("Model returned text instead of image: " ++ text).
Definition NoImageData : exn := Error "No image data found in response.".

(** [Substring t s]: [t] occurs in [s] as a contiguous run. *)
Definition Substring (t s : string) : Prop :=
  exists before after, s = before ++ t ++ after.

(** No white space at either end. *)
Definition Trimmed (s : string) : Prop :=
  (forall c r, s = String c r -> isWhiteSpace c = false) /\
  (forall r c, s = r ++ String c "" -> isWhiteSpace c = false).

(** [FirstSuch P l x]: [x] is the first element of [l], in list order, that
    satisfies [P]. *)
Definition FirstSuch {A} (P : A -> Prop) (l : list A) (x : A) : Prop :=
  exists before after,
    l = (before ++ x :: after)%list /\ Forall (fun y => ~ P y) before /\ P x.

(** What the two template literals come to once trimmed. *)
Definition fullPromptText (typeName styleDesc colors prompt : string)
  : string :=
  "Create a " ++ typeName ++ "." ++
  LF ++ "    Visual Style: " ++ styleDesc ++ "." ++
  LF ++ "    Color Palette: Strictly use these colors: " ++ colors ++ "." ++
  LF ++ "    " ++
  LF ++ "    Content Request: " ++ prompt ++
  LF ++ "    " ++
  LF ++ "    Ensure the output is high quality and adheres to the style constraints.".

Definition fullRefinementPromptText
  (refinementPrompt styleDesc colors : string) : string :=
  "Edit this image." ++
  LF ++ "    Request: " ++ refinementPrompt ++ "." ++
  LF ++ "    Maintain the existing style (" ++ styleDesc ++
        ") and color palette (" ++ colors ++ ").".

(** Every code unit of [w] is white space. *)
Fixpoint allWhiteSpace (w : string) : bool :=
  match w with
  | "" => true
  | String c w' => isWhiteSpace c && allWhiteSpace w'
  end.

(** A segment carries inline data when its [inlineData] is present. *)
Definition hasInlineData (part : Part.t) : Prop := Part.inlineData part <> None.

(** A segment has a text when its [text] is present, empty or not. *)
Definition hasText (part : Part.t) : Prop := Part.text part <> None.

(** A segment has a text that is not the empty string. *)
Definition hasNonEmptyText (part : Part.t) : Prop :=
  exists text, Part.text part = Some text /\ text <> "".

(** A reply whose first candidate, when there is one, has a content with a
    list of segments. *)
Definition firstCandidateHasParts (response : GenerateContentResponse.t)
  : Prop :=
  forall candidate0 rest,
    GenerateContentResponse.candidates response = Some (candidate0 :: rest) ->
    exists content parts,
      Candidate.content candidate0 = Some content /\
      Content.parts content = Some parts.

(** A reply with one candidate that holds the given segments. *)
Definition replyWith (parts : list Part.t) : GenerateContentResponse.t :=
  GenerateContentResponse.mk
    (Some [Candidate.mk (Some (Content.mk (Some parts)))]).

(** The test of the scanning loop, [if (part.inlineData)]. *)
Definition inlineDataPresent (part : Part.t) : bool :=
  match Part.inlineData part with Some _ => true | None => false end.

(** ** More of [src/App.tsx]: the toast, and the life of the state *)

(** The initial values of the three [useState] cells the handlers write:
    [useState(null)], [useState(false)], [useState(null)]. *)
Definition initialState : App.state := App.mk None false None.

(** The button of the error toast: [onClick={() => setError(null)}]. *)
Definition dismissError (st : App.state) : App.state := App.setError None st.

(** The toast is rendered under [{error && (...)}]. *)
Definition errorToastShown (st : App.state) : bool := truthy (App.error st).

(** What the user does to these cells. A request carries the way its call
    settles and the configuration and catalogs of the render it is issued
    from. *)
Inductive action : Type :=
| Generate
    (generateContent :
       GenerateContentParameters.t -> settled GenerateContentResponse.t)
    (config : GenerationConfig.t) (context : GenerationContext.t)
| Refine
    (generateContent :
       GenerateContentParameters.t -> settled GenerateContentResponse.t)
    (config : GenerationConfig.t) (context : GenerationContext.t)
    (refinementText : string)
| DismissError.

Definition perform (a : action) (st : App.state) : App.state :=
  match a with
  | Generate generateContent config context =>
      App.handleGenerate generateContent config context st
  | Refine generateContent config context refinementText =>
      App.handleRefine generateContent config context refinementText st
  | DismissError => dismissError st
  end.

(** The actions one after the other, each on the state the last one left. *)
Definition run (actions : list action) (st : App.state) : App.state :=
  fold_left (fun st a => perform a st) actions st.

Definition isGenerate (a : action) : bool :=
  match a with
  | Generate _ _ _ => true
  | _ => false
  end.

(** ** More of [src/services/geminiService.ts]: the requests *)

(** The argument of [ai.models.generateContent] in [generateGraphic]. *)
Definition generateRequest
  (config : GenerationConfig.t) (context : GenerationContext.t)
  : GenerateContentParameters.t :=
  GenerateContentParameters.mk NANO_BANANA_MODEL
    [Part.mk None (Some (constructFullPrompt config context))]
    (GenerationConfig.aspectRatio config).

(** The argument of [ai.models.generateContent] in [refineGraphic]. *)
Definition refineRequest
  (currentImage : GeneratedImage.t) (refinementPrompt : string)
  (config : GenerationConfig.t) (context : GenerationContext.t)
  : GenerateContentParameters.t :=
  GenerateContentParameters.mk NANO_BANANA_MODEL
    [Part.mk
       (Some (Blob.mk (GeneratedImage.base64Data currentImage)
                (Some (GeneratedImage.mimeType currentImage))))
       None;
     Part.mk None
       (Some (fullRefinementPrompt refinementPrompt config context))]
    (GenerationConfig.aspectRatio config).

(** An API that answers with the very segments it was sent. *)
Definition echo (request : GenerateContentParameters.t)
  : settled GenerateContentResponse.t :=
  Fulfilled (replyWith (GenerateContentParameters.contents_parts request)).

(** An image whose [imageUrl] is the data URI of its two other fields and
    whose [mimeType] is not empty. *)
Definition WellFormedImage (image : GeneratedImage.t) : Prop :=
  GeneratedImage.imageUrl image =
    "data:" ++ GeneratedImage.mimeType image ++ ";base64,"
            ++ ToString (GeneratedImage.base64Data image) /\
  GeneratedImage.mimeType image <> "".

(** The two messages the service throws. *)
Definition generateFailure : string :=
  "Failed to generate image. Please try again.".
Definition refineFailure : string :=
  "Failed to refine image. Please try again.".

(** What holds of the three cells whenever no request is pending. *)
Definition Settled (st : App.state) : Prop :=
  App.isGenerating st = false /\
  (forall image,
      App.generatedImage st = Some image -> WellFormedImage image) /\
  (App.error st = None \/
   App.error st = Some generateFailure \/
   App.error st = Some refineFailure).

(** ** Facts about the string operations *)

Section StringFacts.

Lemma append_assoc (a b c : string) : (a ++ b) ++ c = a ++ b ++ c.
Proof. induction a as [|x a IH]; simpl; [reflexivity | now rewrite IH]. Qed.

Lemma append_nonempty_r (s t : string) : t <> "" -> s ++ t <> "".
Proof. destruct s; simpl; [auto | discriminate]. Qed.

Lemma trimStart_skip (w s : string) :
  allWhiteSpace w = true -> trimStart (w ++ s) = trimStart s.
Proof.
  induction w as [|c w IH]; simpl; [reflexivity|].
  intros H. apply andb_true_iff in H as [Hc Hw]. now rewrite Hc, IH.
Qed.

Lemma trimEnd_blank (w : string) : allWhiteSpace w = true -> trimEnd w = "".
Proof.
  induction w as [|c w IH]; simpl; [reflexivity|].
  intros H. apply andb_true_iff in H as [Hc Hw]. now rewrite IH, Hc.
Qed.

Lemma trimEnd_skip (s w : string) :
  allWhiteSpace w = true -> trimEnd (s ++ w) = trimEnd s.
Proof.
  intros Hw. induction s as [|c s IH]; simpl.
  - now apply trimEnd_blank.
  - now rewrite IH.
Qed.

(** A suffix that [trimEnd] leaves alone shields all that precedes it. *)
Lemma trimEnd_keep (s t : string) :
  t <> "" -> trimEnd t = t -> trimEnd (s ++ t) = s ++ t.
Proof.
  intros Hne Ht. induction s as [|c s IH]; simpl; [exact Ht|].
  rewrite IH. destruct (s ++ t) eqn:E; [|reflexivity].
  exfalso. now apply (append_nonempty_r s t Hne).
Qed.

Lemma trimStart_head (s : string) (c : ascii) (r : string) :
  trimStart s = String c r -> isWhiteSpace c = false.
Proof.
  induction s as [|x s IH]; simpl; [discriminate|].
  destruct (isWhiteSpace x) eqn:E; [exact IH|].
  intros H. inversion H. now subst.
Qed.

Lemma trimEnd_head (s : string) (c : ascii) (r : string) :
  trimEnd s = String c r -> exists r', s = String c r'.
Proof.
  destruct s as [|x s]; simpl; [discriminate|].
  destruct (trimEnd s); [destruct (isWhiteSpace x)|]; intros H;
    inversion H; subst; eauto.
Qed.

Lemma trimEnd_last (s r : string) (c : ascii) :
  trimEnd s = r ++ String c "" -> isWhiteSpace c = false.
Proof.
  revert r; induction s as [|x s IH]; intros r; simpl.
  - destruct r; discriminate.
  - destruct (trimEnd s) as [|y t] eqn:E.
    + destruct (isWhiteSpace x) eqn:Hx.
      * destruct r; discriminate.
      * destruct r as [|z r]; simpl; intros H; inversion H; subst;
          [exact Hx | destruct r; discriminate].
    + destruct r as [|z r]; simpl; intros H; inversion H; subst.
      apply (IH r). assumption.
Qed.

(** [trim] does its work: what it returns has white space at neither
    end. *)
Lemma trim_Trimmed (s : string) : Trimmed (trim s).
Proof.
  unfold trim; split.
  - intros c r H. destruct (trimEnd_head _ _ _ H) as [r' Hr'].
    exact (trimStart_head _ _ _ Hr').
  - intros r c H. exact (trimEnd_last _ _ _ H).
Qed.

(** White space around a text that has none at its ends is all that
    [trim] removes. *)
Lemma trim_between (w1 w2 : string) (c : ascii) (r : string) :
  allWhiteSpace w1 = true -> allWhiteSpace w2 = true ->
  isWhiteSpace c = false -> trimEnd (String c r) = String c r ->
  trim (w1 ++ String c r ++ w2) = String c r.
Proof.
  intros H1 H2 Hc Hr. unfold trim.
  rewrite trimStart_skip by assumption.
  simpl trimStart. rewrite Hc.
  change (String c (r ++ w2)) with (String c r ++ w2).
  now rewrite trimEnd_skip.
Qed.

Lemma startsWith_spec (s p : string) :
  startsWith s p = true <-> exists rest, s = p ++ rest.
Proof.
  revert s; induction p as [|a p IH]; intros s.
  - destruct s; simpl; split; eauto.
  - destruct s as [|b s]; cbn [startsWith].
    + split; [discriminate | intros [rest H]; discriminate].
    + rewrite andb_true_iff, Ascii.eqb_eq, IH. split.
      * intros [-> [rest ->]]. now exists rest.
      * intros [rest H]. inversion H; subst. eauto.
Qed.

Lemma includes_spec (s t : string) :
  includes s t = true <-> Substring t s.
Proof.
  unfold Substring. induction s as [|c s IH]; cbn [includes].
  - rewrite orb_false_r, startsWith_spec. split.
    + intros [rest H]. now exists "", rest.
    + intros [[|x b] [a H]]; simpl in H; [eauto | discriminate].
  - rewrite orb_true_iff, IH, startsWith_spec. split.
    + intros [[rest H] | [b [a H]]].
      * now exists "", rest.
      * exists (String c b), a. simpl. now rewrite H.
    + intros [[|x b] [a H]]; simpl in H.
      * left; eauto.
      * right. inversion H; subst. eauto.
Qed.

End StringFacts.

(** ** Facts about the two prompts *)

Section PromptFacts.

Variables typeName styleDesc colors prompt : string.

Lemma fullPromptTemplate_shape :
  fullPromptTemplate typeName styleDesc colors prompt =
  (LF ++ "    ") ++ fullPromptText typeName styleDesc colors prompt
                 ++ (LF ++ "  ").
Proof.
  unfold fullPromptTemplate, fullPromptText.
  repeat rewrite append_assoc. reflexivity.
Qed.

Lemma trimEnd_fullPromptText :
  trimEnd (fullPromptText typeName styleDesc colors prompt) =
  fullPromptText typeName styleDesc colors prompt.
Proof.
  unfold fullPromptText.
  repeat first [ reflexivity | discriminate
               | apply trimEnd_keep | apply append_nonempty_r ].
Qed.

Lemma trim_fullPromptTemplate :
  trim (fullPromptTemplate typeName styleDesc colors prompt) =
  fullPromptText typeName styleDesc colors prompt.
Proof.
  rewrite fullPromptTemplate_shape.
  pose proof trimEnd_fullPromptText as H. revert H.
  unfold fullPromptText at 1 2 3.
  change ("Create a " ++ ?x) with (String "C" ("reate a " ++ x)).
  intros H. now apply trim_between.
Qed.

End PromptFacts.

Section RefinementPromptFacts.

Variables refinementPrompt styleDesc colors : string.

Lemma fullRefinementPromptTemplate_shape :
  fullRefinementPromptTemplate refinementPrompt styleDesc colors =
  (LF ++ "    ")
    ++ fullRefinementPromptText refinementPrompt styleDesc colors
    ++ (LF ++ "  ").
Proof.
  unfold fullRefinementPromptTemplate, fullRefinementPromptText.
  repeat rewrite append_assoc. reflexivity.
Qed.

Lemma trimEnd_fullRefinementPromptText :
  trimEnd (fullRefinementPromptText refinementPrompt styleDesc colors) =
  fullRefinementPromptText refinementPrompt styleDesc colors.
Proof.
  unfold fullRefinementPromptText.
  repeat first [ reflexivity | discriminate
               | apply trimEnd_keep | apply append_nonempty_r ].
Qed.

Lemma trim_fullRefinementPromptTemplate :
  trim (fullRefinementPromptTemplate refinementPrompt styleDesc colors) =
  fullRefinementPromptText refinementPrompt styleDesc colors.
Proof.
  rewrite fullRefinementPromptTemplate_shape.
  pose proof trimEnd_fullRefinementPromptText as H. revert H.
  unfold fullRefinementPromptText at 1 2 3.
  change ("Edit this image." ++ ?x) with (String "E" ("dit this image." ++ x)).
  intros H. now apply trim_between.
Qed.

End RefinementPromptFacts.

Lemma constructFullPrompt_text config context :
  constructFullPrompt config context =
  fullPromptText (constructFullPrompt_typeName config context)
                 (constructFullPrompt_styleDesc config context)
                 (constructFullPrompt_colors config context)
                 (GenerationConfig.prompt config).
Proof. unfold constructFullPrompt. apply trim_fullPromptTemplate. Qed.

Lemma fullRefinementPrompt_text refinementPrompt config context :
  fullRefinementPrompt refinementPrompt config context =
  fullRefinementPromptText refinementPrompt
    (refineGraphic_styleDesc config context)
    (refineGraphic_colors config context).
Proof. unfold fullRefinementPrompt. apply trim_fullRefinementPromptTemplate. Qed.

(** ** Facts about [find] and the scanning loop *)

Section FindFacts.

Context {A : Type} (f : A -> bool) (P : A -> Prop).
Hypothesis f_decides : forall y, f y = true <-> P y.

Lemma find_FirstSuch (l : list A) (x : A) :
  find f l = Some x <-> FirstSuch P l x.
Proof.
  unfold FirstSuch. induction l as [|y l IH]; simpl.
  - split; [discriminate|].
    intros (b & a & H & _). destruct b; discriminate.
  - destruct (f y) eqn:E.
    + split.
      * intros [= <-]. exists [], l. repeat split; auto.
        now apply f_decides.
      * intros ([|z b] & a & H & Hb & Hx); inversion H; subst; auto.
        inversion Hb as [|? ? Hz _]; subst.
        exfalso. apply Hz. now apply f_decides.
    + rewrite IH. split.
      * intros (b & a & -> & Hb & Hx). exists (y :: b), a.
        repeat split; auto. constructor; auto.
        intros Hy. apply f_decides in Hy. congruence.
      * intros ([|z b] & a & H & Hb & Hx); inversion H; subst.
        -- apply f_decides in Hx. congruence.
        -- inversion Hb; subst. eauto.
Qed.

Lemma FirstSuch_head (x : A) (l : list A) : P x -> FirstSuch P (x :: l) x.
Proof. intros H. exists [], l. auto. Qed.

Lemma find_None_Forall (l : list A) :
  find f l = None <-> Forall (fun y => ~ P y) l.
Proof.
  induction l as [|y l IH]; simpl.
  - split; auto.
  - destruct (f y) eqn:E.
    + split; [discriminate|].
      intros H. inversion H as [|? ? Hy _]; subst.
      exfalso. apply Hy. now apply f_decides.
    + rewrite IH. split.
      * intros H. constructor; auto.
        intros Hy. apply f_decides in Hy. congruence.
      * intros H. now inversion H.
Qed.

End FindFacts.

Section ScanFacts.

Lemma scanImagePart_find (parts : list Part.t) :
  scanImagePart parts = find inlineDataPresent parts.
Proof.
  induction parts as [|p parts IH]; simpl; [reflexivity|].
  unfold inlineDataPresent at 1. destruct (Part.inlineData p); auto.
Qed.

Lemma inlineDataPresent_spec (part : Part.t) :
  inlineDataPresent part = true <-> hasInlineData part.
Proof.
  unfold inlineDataPresent, hasInlineData.
  destruct (Part.inlineData part); split; congruence.
Qed.

Lemma truthy_text_spec (part : Part.t) :
  truthy (Part.text part) = true <-> hasNonEmptyText part.
Proof.
  unfold hasNonEmptyText.
  destruct (Part.text part) as [[|c t]|]; simpl; split;
    try discriminate; try (intros (t' & H & Hne); congruence).
  intros _. exists (String c t). split; [reflexivity | discriminate].
Qed.

Lemma scanImagePart_FirstSuch (parts : list Part.t) (part : Part.t) :
  scanImagePart parts = Some part <-> FirstSuch hasInlineData parts part.
Proof.
  rewrite scanImagePart_find.
  apply find_FirstSuch, inlineDataPresent_spec.
Qed.

Lemma scanImagePart_None (parts : list Part.t) :
  scanImagePart parts = None <->
  Forall (fun p => ~ hasInlineData p) parts.
Proof.
  rewrite scanImagePart_find.
  apply find_None_Forall, inlineDataPresent_spec.
Qed.

(** What the extractor does once the segments are in hand. *)
Lemma extract_with_parts response candidate0 rest content parts :
  GenerateContentResponse.candidates response = Some (candidate0 :: rest) ->
  Candidate.content candidate0 = Some content ->
  Content.parts content = Some parts ->
  extractImageFromResponse response =
  extractImageFromResponse (replyWith parts).
Proof.
  intros H1 H2 H3. unfold extractImageFromResponse, replyWith; simpl.
  now rewrite H1, H2, H3.
Qed.

Lemma extract_winning parts imagePart inlineData :
  FirstSuch hasInlineData parts imagePart ->
  Part.inlineData imagePart = Some inlineData ->
  extractImageFromResponse (replyWith parts) =
  Ok (GeneratedImage.mk
        ("data:" ++ or_else (Blob.mimeType inlineData) "image/png"
                 ++ ";base64," ++ ToString (Blob.data inlineData))
        (Blob.data inlineData)
        (or_else (Blob.mimeType inlineData) "image/png")).
Proof.
  intros Hfirst Hdata. apply scanImagePart_FirstSuch in Hfirst.
  unfold extractImageFromResponse, replyWith; simpl.
  now rewrite Hfirst, Hdata.
Qed.

Lemma hasInlineData_intro (part : Part.t) (inlineData : Blob.t) :
  Part.inlineData part = Some inlineData -> hasInlineData part.
Proof. unfold hasInlineData. congruence. Qed.

Lemma or_else_nonempty (a : option string) (b : string) :
  b <> "" -> or_else a b <> "".
Proof. destruct a as [[|c s]|]; simpl; auto; discriminate. Qed.

End ScanFacts.

(** ** The response extractor *)

(** C3. When the segment list of the first candidate holds an inline-data
    segment, the extractor returns the image made from the first one in
    list order, whatever comes after it; so a reply with an inline-data
    segment followed by a text segment gives the image and drops the
    text. *)
Theorem extract_first_inline_data_wins :
  forall response candidate0 rest content parts imagePart inlineData,
    GenerateContentResponse.candidates response = Some (candidate0 :: rest) ->
    Candidate.content candidate0 = Some content ->
    Content.parts content = Some parts ->
    FirstSuch hasInlineData parts imagePart ->
    Part.inlineData imagePart = Some inlineData ->
    let image :=
      GeneratedImage.mk
        ("data:" ++ or_else (Blob.mimeType inlineData) "image/png"
                 ++ ";base64," ++ ToString (Blob.data inlineData))
        (Blob.data inlineData)
        (or_else (Blob.mimeType inlineData) "image/png") in
    extractImageFromResponse response = Ok image /\
    (forall before later,
        Forall (fun p => ~ hasInlineData p) before ->
        extractImageFromResponse (replyWith (before ++ imagePart :: later))
        = Ok image) /\
    (forall text,
        extractImageFromResponse
          (replyWith [Part.mk (Some inlineData) None; Part.mk None (Some text)])
        = Ok image).
Proof.
  intros response candidate0 rest content parts imagePart inlineData
         Hc Hcontent Hparts Hfirst Hdata image.
  assert (Hhas : hasInlineData imagePart) by (unfold hasInlineData; congruence).
  split; [|split].
  - rewrite (extract_with_parts _ _ _ _ _ Hc Hcontent Hparts).
    now apply (extract_winning parts imagePart inlineData).
  - intros before later Hbefore.
    apply (extract_winning _ imagePart inlineData); [|assumption].
    exists before, later. auto.
  - intros text. reflexivity.
Qed.

Lemma extract_first_inline_data_wins_witness :
  extractImageFromResponse
    (replyWith [Part.mk None (Some "Here you go");
                Part.mk (Some (Blob.mk (Some "QUJD") (Some "image/jpeg"))) None;
                Part.mk (Some (Blob.mk (Some "REVG") (Some "image/webp"))) None])
  = Ok (GeneratedImage.mk "data:image/jpeg;base64,QUJD" (Some "QUJD")
          "image/jpeg").
Proof.
  refine (proj1
    (extract_first_inline_data_wins
       (replyWith [Part.mk None (Some "Here you go");
                   Part.mk (Some (Blob.mk (Some "QUJD") (Some "image/jpeg"))) None;
                   Part.mk (Some (Blob.mk (Some "REVG") (Some "image/webp"))) None])
       _ [] _ _
       (Part.mk (Some (Blob.mk (Some "QUJD") (Some "image/jpeg"))) None)
       (Blob.mk (Some "QUJD") (Some "image/jpeg"))
       eq_refl eq_refl eq_refl _ eq_refl)).
  exists [Part.mk None (Some "Here you go")],
         [Part.mk (Some (Blob.mk (Some "REVG") (Some "image/webp"))) None].
  split; [reflexivity|]. split.
  - constructor; [|constructor]. unfold hasInlineData; simpl. congruence.
  - unfold hasInlineData; simpl. discriminate.
Defined.

(** C5. Whatever result the extractor returns, its [imageUrl] is
    ["data:" + mimeType + ";base64," + base64Data] over the other two
    fields of the same result. *)
Theorem imageUrl_is_derived :
  forall response image,
    extractImageFromResponse response = Ok image ->
    GeneratedImage.imageUrl image =
    "data:" ++ GeneratedImage.mimeType image ++ ";base64,"
            ++ ToString (GeneratedImage.base64Data image).
Proof.
  intros response image. unfold extractImageFromResponse.
  destruct (GenerateContentResponse.candidates response) as [[|c0 rest]|];
    try discriminate.
  destruct (Candidate.content c0) as [content|]; try discriminate.
  destruct (Content.parts content) as [parts|]; try discriminate.
  destruct (scanImagePart parts) as [imagePart|].
  - destruct (Part.inlineData imagePart) as [inlineData|]; try discriminate.
    intros [= <-]. reflexivity.
  - destruct (find _ parts); discriminate.
Qed.

Lemma imageUrl_is_derived_witness :
  "data:image/jpeg;base64,QUJD" =
  "data:" ++ "image/jpeg" ++ ";base64," ++ ToString (Some "QUJD").
Proof.
  exact (imageUrl_is_derived
           (replyWith
              [Part.mk (Some (Blob.mk (Some "QUJD") (Some "image/jpeg"))) None])
           (GeneratedImage.mk "data:image/jpeg;base64,QUJD" (Some "QUJD")
              "image/jpeg")
           eq_refl).
Defined.

(** C4, as the code has it. When the winning inline-data segment declares
    no MIME type, the result's [mimeType] is ["image/png"] and its
    [imageUrl] starts with ["data:image/png;base64,"]; when it declares a
    MIME type that is not the empty string, that value is used. *)
Theorem extract_mimeType_default :
  forall response candidate0 rest content parts imagePart inlineData,
    GenerateContentResponse.candidates response = Some (candidate0 :: rest) ->
    Candidate.content candidate0 = Some content ->
    Content.parts content = Some parts ->
    FirstSuch hasInlineData parts imagePart ->
    Part.inlineData imagePart = Some inlineData ->
    exists image,
      extractImageFromResponse response = Ok image /\
      (Blob.mimeType inlineData = None ->
         GeneratedImage.mimeType image = "image/png" /\
         startsWith (GeneratedImage.imageUrl image) "data:image/png;base64,"
         = true) /\
      (forall declared,
         Blob.mimeType inlineData = Some declared -> declared <> "" ->
         GeneratedImage.mimeType image = declared /\
         GeneratedImage.imageUrl image =
         "data:" ++ declared ++ ";base64," ++ ToString (Blob.data inlineData)).
Proof.
  intros response candidate0 rest content parts imagePart inlineData
         Hc Hcontent Hparts Hfirst Hdata.
  eexists. split.
  - rewrite (extract_with_parts _ _ _ _ _ Hc Hcontent Hparts).
    apply (extract_winning parts imagePart inlineData); assumption.
  - simpl. split.
    + intros ->. simpl. split; [reflexivity|].
      apply startsWith_spec. eexists. reflexivity.
    + intros declared -> Hne. destruct declared; [congruence|].
      simpl. split; reflexivity.
Qed.

Lemma extract_mimeType_default_witness :
  exists image,
    extractImageFromResponse
      (replyWith [Part.mk (Some (Blob.mk (Some "QUJD") (Some "image/jpeg"))) None])
    = Ok image /\
    GeneratedImage.mimeType image = "image/jpeg".
Proof.
  pose (blob := Blob.mk (Some "QUJD") (Some "image/jpeg")).
  pose (part := Part.mk (Some blob) None).
  destruct (extract_mimeType_default
              (replyWith [part]) _ [] _ _ part blob
              eq_refl eq_refl eq_refl
              (FirstSuch_head hasInlineData part []
                 (hasInlineData_intro part blob eq_refl))
              eq_refl)
    as (image & Hok & _ & Hdeclared).
  exists image. split; [exact Hok|].
  apply (Hdeclared "image/jpeg" eq_refl). discriminate.
Defined.

(** C4 as written fails where the declared MIME type is the empty string:
    the segment declares one, and the result carries ["image/png"]
    instead of the declared value. *)
Lemma empty_declared_mimeType_counterexample :
  Blob.mimeType (Blob.mk (Some "QUJD") (Some "")) = Some "" /\
  FirstSuch hasInlineData
    [Part.mk (Some (Blob.mk (Some "QUJD") (Some ""))) None]
    (Part.mk (Some (Blob.mk (Some "QUJD") (Some ""))) None) /\
  extractImageFromResponse
    (replyWith [Part.mk (Some (Blob.mk (Some "QUJD") (Some ""))) None])
  = Ok (GeneratedImage.mk "data:image/png;base64,QUJD" (Some "QUJD")
          "image/png") /\
  "image/png" <> "".
Proof.
  split; [reflexivity|]. split; [|split; [reflexivity | discriminate]].
  apply FirstSuch_head. unfold hasInlineData; simpl. discriminate.
Qed.

(** C10. A winning inline-data segment whose declared MIME type is the
    empty string gets ["image/png"] too, and so the [mimeType] of every
    result the extractor returns is a non-empty string. *)
Theorem extract_mimeType_nonempty :
  (forall response candidate0 rest content parts imagePart inlineData,
      GenerateContentResponse.candidates response = Some (candidate0 :: rest) ->
      Candidate.content candidate0 = Some content ->
      Content.parts content = Some parts ->
      FirstSuch hasInlineData parts imagePart ->
      Part.inlineData imagePart = Some inlineData ->
      Blob.mimeType inlineData = Some "" ->
      exists image,
        extractImageFromResponse response = Ok image /\
        GeneratedImage.mimeType image = "image/png") /\
  (forall response image,
      extractImageFromResponse response = Ok image ->
      GeneratedImage.mimeType image <> "").
Proof.
  split.
  - intros response candidate0 rest content parts imagePart inlineData
           Hc Hcontent Hparts Hfirst Hdata Hmime.
    eexists. split.
    + rewrite (extract_with_parts _ _ _ _ _ Hc Hcontent Hparts).
      apply (extract_winning parts imagePart inlineData); assumption.
    + simpl. now rewrite Hmime.
  - intros response image. unfold extractImageFromResponse.
    destruct (GenerateContentResponse.candidates response) as [[|c0 rest]|];
      try discriminate.
    destruct (Candidate.content c0) as [content|]; try discriminate.
    destruct (Content.parts content) as [parts|]; try discriminate.
    destruct (scanImagePart parts) as [imagePart|].
    + destruct (Part.inlineData imagePart) as [inlineData|]; try discriminate.
      intros [= <-]. simpl. apply or_else_nonempty. discriminate.
    + destruct (find _ parts); discriminate.
Qed.

Lemma extract_mimeType_nonempty_witness :
  (exists image,
      extractImageFromResponse
        (replyWith [Part.mk (Some (Blob.mk (Some "QUJD") (Some ""))) None])
      = Ok image /\
      GeneratedImage.mimeType image = "image/png") /\
  "image/webp" <> "".
Proof.
  pose (blob := Blob.mk (Some "QUJD") (Some "")).
  pose (part := Part.mk (Some blob) None).
  split.
  - exact (proj1 extract_mimeType_nonempty
             (replyWith [part]) _ [] _ _ part blob
             eq_refl eq_refl eq_refl
             (FirstSuch_head hasInlineData part []
                (hasInlineData_intro part blob eq_refl))
             eq_refl eq_refl).
  - exact (proj2 extract_mimeType_nonempty
             (replyWith
                [Part.mk (Some (Blob.mk (Some "REVG") (Some "image/webp"))) None])
             (GeneratedImage.mk "data:image/webp;base64,REVG" (Some "REVG")
                "image/webp")
             eq_refl).
Defined.

(** C9. A reply whose first candidate has a content with a segment list
    gets a result or one of the three diagnoses; a reply whose first
    candidate lacks the content, or whose content lacks the segment list,
    gets a TypeError, which is none of the three. *)
Theorem extract_total_when_parts_present :
  forall response,
    (firstCandidateHasParts response ->
       (exists image, extractImageFromResponse response = Ok image) \/
       extractImageFromResponse response = Throw EmptyResponse \/
       (exists text,
           extractImageFromResponse response = Throw (ModelRefused text)) \/
       extractImageFromResponse response = Throw NoImageData) /\
    (forall candidate0 rest,
       GenerateContentResponse.candidates response = Some (candidate0 :: rest) ->
       Candidate.content candidate0 = None \/
       (exists content,
           Candidate.content candidate0 = Some content /\
           Content.parts content = None) ->
       exists message,
         extractImageFromResponse response = Throw (TypeError message) /\
         TypeError message <> EmptyResponse /\
         TypeError message <> NoImageData /\
         forall text, TypeError message <> ModelRefused text).
Proof.
  intros response. split.
  - intros Hshape. unfold extractImageFromResponse.
    destruct (GenerateContentResponse.candidates response)
      as [[|c0 rest]|] eqn:Hc; [right; left; reflexivity | | right; left; reflexivity].
    destruct (Hshape c0 rest Hc) as (content & parts & -> & ->).
    destruct (scanImagePart parts) as [imagePart|] eqn:Hscan.
    + apply scanImagePart_FirstSuch in Hscan.
      destruct Hscan as (_ & _ & _ & _ & Hhas).
      unfold hasInlineData in Hhas.
      destruct (Part.inlineData imagePart); [eauto | congruence].
    + destruct (find _ parts) as [textPart|].
      * right; right; left. eexists. reflexivity.
      * do 3 right. reflexivity.
  - intros candidate0 rest Hc Hmissing. unfold extractImageFromResponse.
    rewrite Hc.
    destruct Hmissing as [-> | (content & -> & ->)];
      eexists; (split; [reflexivity|]); repeat split; try discriminate;
      intros text; discriminate.
Qed.

Lemma extract_total_when_parts_present_witness :
  ((exists image,
       extractImageFromResponse (replyWith []) = Ok image) \/
   extractImageFromResponse (replyWith []) = Throw EmptyResponse \/
   (exists text,
       extractImageFromResponse (replyWith []) = Throw (ModelRefused text)) \/
   extractImageFromResponse (replyWith []) = Throw NoImageData) /\
  (exists message,
      extractImageFromResponse
        (GenerateContentResponse.mk (Some [Candidate.mk None]))
      = Throw (TypeError message)).
Proof.
  split.
  - apply (proj1 (extract_total_when_parts_present (replyWith []))).
    intros candidate0 rest H. injection H as <- <-.
    exists (Content.mk (Some [])), []. split; reflexivity.
  - destruct (proj2 (extract_total_when_parts_present
                       (GenerateContentResponse.mk (Some [Candidate.mk None])))
                (Candidate.mk None) [] eq_refl (or_introl eq_refl))
      as (message & H & _).
    exists message. exact H.
Defined.

(** C2, as the code has it. The extractor fails with EmptyResponse exactly
    when the candidate list is absent or empty. When the segments of the
    first candidate hold no inline-data segment, it fails with ModelRefused
    carrying the text of the first segment whose text is not the empty
    string, if there is one, and with NoImageData if no segment has a
    non-empty text. *)
Theorem extract_failure_classification :
  forall response,
    (extractImageFromResponse response = Throw EmptyResponse <->
       GenerateContentResponse.candidates response = None \/
       GenerateContentResponse.candidates response = Some []) /\
    (forall candidate0 rest content parts,
       GenerateContentResponse.candidates response = Some (candidate0 :: rest) ->
       Candidate.content candidate0 = Some content ->
       Content.parts content = Some parts ->
       Forall (fun p => ~ hasInlineData p) parts ->
       (forall textPart text,
           FirstSuch hasNonEmptyText parts textPart ->
           Part.text textPart = Some text ->
           extractImageFromResponse response = Throw (ModelRefused text)) /\
       (Forall (fun p => ~ hasNonEmptyText p) parts ->
        extractImageFromResponse response = Throw NoImageData)).
Proof.
  intros response. split.
  - split.
    + unfold extractImageFromResponse, EmptyResponse.
      destruct (GenerateContentResponse.candidates response)
        as [[|c0 rest]|]; auto.
      destruct (Candidate.content c0) as [content|]; try discriminate.
      destruct (Content.parts content) as [parts|]; try discriminate.
      destruct (scanImagePart parts) as [imagePart|].
      * destruct (Part.inlineData imagePart); discriminate.
      * destruct (find _ parts); discriminate.
    + unfold extractImageFromResponse.
      intros [-> | ->]; reflexivity.
  - intros candidate0 rest content parts Hc Hcontent Hparts Hnone.
    rewrite (extract_with_parts _ _ _ _ _ Hc Hcontent Hparts).
    apply scanImagePart_None in Hnone.
    unfold extractImageFromResponse, replyWith; simpl. rewrite Hnone.
    split.
    + intros textPart text Hfirst Htext.
      apply (find_FirstSuch _ _ truthy_text_spec) in Hfirst.
      rewrite Hfirst, Htext. reflexivity.
    + intros Hnotext.
      apply (find_None_Forall _ _ truthy_text_spec) in Hnotext.
      now rewrite Hnotext.
Qed.

Lemma extract_failure_classification_witness :
  (GenerateContentResponse.candidates (GenerateContentResponse.mk (Some []))
   = None \/
   GenerateContentResponse.candidates (GenerateContentResponse.mk (Some []))
   = Some []) /\
  extractImageFromResponse
    (replyWith [Part.mk None (Some ""); Part.mk None (Some "I cannot create this.")])
  = Throw (ModelRefused "I cannot create this.") /\
  extractImageFromResponse (replyWith [Part.mk None None])
  = Throw NoImageData.
Proof.
  pose (silent := Part.mk None (Some "")).
  pose (refusal := Part.mk None (Some "I cannot create this.")).
  assert (Hsilent : ~ hasNonEmptyText silent).
  { intros (text & H & Hne). injection H as <-. now apply Hne. }
  assert (Hblank : ~ hasNonEmptyText (Part.mk None None)).
  { intros (text & H & _). discriminate H. }
  assert (Hno : forall texts,
             Forall (fun p => ~ hasInlineData p) (map (Part.mk None) texts)).
  { intros texts. induction texts; constructor; auto. }
  split; [|split].
  - apply (proj1 (extract_failure_classification
                    (GenerateContentResponse.mk (Some [])))).
    reflexivity.
  - apply (proj1 (proj2 (extract_failure_classification
                           (replyWith [silent; refusal]))
                    _ [] _ [silent; refusal] eq_refl eq_refl eq_refl
                    (Hno [Some ""; Some "I cannot create this."]))
             refusal "I cannot create this.").
    + exists [silent], []. split; [reflexivity|]. split.
      * constructor; [exact Hsilent | constructor].
      * exists "I cannot create this.". split; [reflexivity | discriminate].
    + reflexivity.
  - apply (proj2 (proj2 (extract_failure_classification
                           (replyWith [Part.mk None None]))
                    _ [] _ [Part.mk None None] eq_refl eq_refl eq_refl
                    (Hno [None]))).
    constructor; [exact Hblank | constructor].
Defined.

(** C2 as written fails on a segment whose text is the empty string: the
    segment has a text and no inline data, and the extractor answers
    NoImageData, not ModelRefused with that text. *)
Lemma empty_text_counterexample :
  Forall (fun p => ~ hasInlineData p) [Part.mk None (Some "")] /\
  FirstSuch hasText [Part.mk None (Some "")] (Part.mk None (Some "")) /\
  Part.text (Part.mk None (Some "")) = Some "" /\
  extractImageFromResponse (replyWith [Part.mk None (Some "")])
  = Throw NoImageData /\
  extractImageFromResponse (replyWith [Part.mk None (Some "")])
  <> Throw (ModelRefused "").
Proof.
  split; [|split; [|split; [|split]]].
  - constructor; [|constructor]. intros H. now apply H.
  - apply FirstSuch_head. unfold hasText; simpl. discriminate.
  - reflexivity.
  - reflexivity.
  - discriminate.
Qed.

(** ** The two service calls *)

Section ServiceFacts.

Variable generateContent :
  GenerateContentParameters.t -> settled GenerateContentResponse.t.

(** The [catch] of [generateGraphic] encloses the call of the extractor:
    whatever is thrown, the caller gets the one fixed message. *)
Lemma generateGraphic_throws_fixed config context e :
  generateGraphic generateContent config context = Throw e ->
  e = Error "Failed to generate image. Please try again.".
Proof.
  unfold generateGraphic, try_catch, bind, await.
  destruct (generateContent _) as [response|reason].
  - destruct (extractImageFromResponse response); congruence.
  - congruence.
Qed.

Lemma refineGraphic_throws_fixed currentImage refinementPrompt config context e :
  refineGraphic generateContent currentImage refinementPrompt config context
  = Throw e ->
  e = Error "Failed to refine image. Please try again.".
Proof.
  unfold refineGraphic, try_catch, bind, await.
  destruct (generateContent _) as [response|reason].
  - destruct (extractImageFromResponse response); congruence.
  - congruence.
Qed.

End ServiceFacts.

(** C1, on the code. The API answers with one candidate whose only segment
    is the text "I cannot create this.". The extractor throws ModelRefused
    with that text; [generateGraphic] and [refineGraphic] catch it and throw
    their fixed messages, in which the text does not occur. *)
Theorem refusal_text_is_masked :
  forall config context currentImage refinementPrompt,
    extractImageFromResponse
      (replyWith [Part.mk None (Some "I cannot create this.")])
    = Throw (ModelRefused "I cannot create this.") /\
    generateGraphic
      (fun _ => Fulfilled (replyWith [Part.mk None (Some "I cannot create this.")]))
      config context
    = Throw (Error "Failed to generate image. Please try again.") /\
    includes "Failed to generate image. Please try again."
             "I cannot create this." = false /\
    refineGraphic
      (fun _ => Fulfilled (replyWith [Part.mk None (Some "I cannot create this.")]))
      currentImage refinementPrompt config context
    = Throw (Error "Failed to refine image. Please try again.") /\
    includes "Failed to refine image. Please try again."
             "I cannot create this." = false.
Proof.
  intros config context currentImage refinementPrompt.
  repeat split.
Qed.

(** ** The prompt builders *)

Section CatalogFacts.

Lemma findBrandColor_FirstSuch id brandColors colorScheme :
  findBrandColor id brandColors = Some colorScheme <->
  FirstSuch (fun c => BrandColor.id c = id) brandColors colorScheme.
Proof. apply find_FirstSuch. intros c. apply String.eqb_eq. Qed.

Lemma findVisualStyle_FirstSuch id visualStyles style :
  findVisualStyle id visualStyles = Some style <->
  FirstSuch (fun s => VisualStyle.id s = id) visualStyles style.
Proof. apply find_FirstSuch. intros s. apply String.eqb_eq. Qed.

Lemma findGraphicType_FirstSuch id graphicTypes type :
  findGraphicType id graphicTypes = Some type <->
  FirstSuch (fun t => GraphicType.id t = id) graphicTypes type.
Proof. apply find_FirstSuch. intros t. apply String.eqb_eq. Qed.

Lemma findBrandColor_None id brandColors :
  findBrandColor id brandColors = None <->
  Forall (fun c => BrandColor.id c <> id) brandColors.
Proof.
  apply (find_None_Forall _ (fun c => BrandColor.id c = id)).
  intros c. apply String.eqb_eq.
Qed.

Lemma findVisualStyle_None id visualStyles :
  findVisualStyle id visualStyles = None <->
  Forall (fun s => VisualStyle.id s <> id) visualStyles.
Proof.
  apply (find_None_Forall _ (fun s => VisualStyle.id s = id)).
  intros s. apply String.eqb_eq.
Qed.

Lemma findGraphicType_None id graphicTypes :
  findGraphicType id graphicTypes = None <->
  Forall (fun t => GraphicType.id t <> id) graphicTypes.
Proof.
  apply (find_None_Forall _ (fun t => GraphicType.id t = id)).
  intros t. apply String.eqb_eq.
Qed.

End CatalogFacts.

(** C6. When the three ids of the configuration each resolve to a catalog
    entry, the generation prompt contains the name of the graphic type, the
    description of the style, the colors joined by ", " and the user's
    prompt text, each as it is; and the prompt has white space at neither
    end. *)
Theorem constructFullPrompt_contains :
  forall config context colorScheme style type,
    FirstSuch
      (fun c => BrandColor.id c = GenerationConfig.colorSchemeId config)
      (GenerationContext.brandColors context) colorScheme ->
    FirstSuch
      (fun s => VisualStyle.id s = GenerationConfig.visualStyleId config)
      (GenerationContext.visualStyles context) style ->
    FirstSuch
      (fun t => GraphicType.id t = GenerationConfig.graphicTypeId config)
      (GenerationContext.graphicTypes context) type ->
    let fullPrompt := constructFullPrompt config context in
    Substring (GraphicType.name type) fullPrompt /\
    Substring (VisualStyle.description style) fullPrompt /\
    Substring (join (BrandColor.colors colorScheme) ", ") fullPrompt /\
    Substring (GenerationConfig.prompt config) fullPrompt /\
    Trimmed fullPrompt.
Proof.
  intros config context colorScheme style type Hcolor Hstyle Htype fullPrompt.
  assert (Htrim : Trimmed fullPrompt) by apply trim_Trimmed.
  subst fullPrompt. revert Htrim. rewrite constructFullPrompt_text.
  unfold constructFullPrompt_typeName, constructFullPrompt_styleDesc,
    constructFullPrompt_colors.
  apply findBrandColor_FirstSuch in Hcolor.
  apply findVisualStyle_FirstSuch in Hstyle.
  apply findGraphicType_FirstSuch in Htype.
  rewrite Hcolor, Hstyle, Htype. intros Htrim.
  unfold fullPromptText, Substring.
  split; [|split; [|split; [|split]]].
  - exists "Create a ". eexists. reflexivity.
  - exists ("Create a " ++ GraphicType.name type ++ "." ++ LF
              ++ "    Visual Style: ").
    eexists. repeat rewrite append_assoc. reflexivity.
  - exists ("Create a " ++ GraphicType.name type ++ "." ++ LF
              ++ "    Visual Style: " ++ VisualStyle.description style ++ "."
              ++ LF ++ "    Color Palette: Strictly use these colors: ").
    eexists. repeat rewrite append_assoc. reflexivity.
  - exists ("Create a " ++ GraphicType.name type ++ "." ++ LF
              ++ "    Visual Style: " ++ VisualStyle.description style ++ "."
              ++ LF ++ "    Color Palette: Strictly use these colors: "
              ++ join (BrandColor.colors colorScheme) ", " ++ "."
              ++ LF ++ "    " ++ LF ++ "    Content Request: ").
    eexists. repeat rewrite append_assoc. reflexivity.
  - exact Htrim.
Qed.

Lemma constructFullPrompt_contains_witness :
  Substring "#FFE135, #3D2B1F"
    (constructFullPrompt
       (GenerationConfig.mk "a banana mascot" "banana" "flat" "logo" "1:1")
       (GenerationContext.mk
          [BrandColor.mk "Ocean" ["#0077BE"] "ocean";
           BrandColor.mk "Banana" ["#FFE135"; "#3D2B1F"] "banana"]
          [VisualStyle.mk "Flat" "flat vector art" "flat"]
          [GraphicType.mk "Logo" "logo"])).
Proof.
  refine (proj1 (proj2 (proj2
    (constructFullPrompt_contains
       (GenerationConfig.mk "a banana mascot" "banana" "flat" "logo" "1:1")
       (GenerationContext.mk
          [BrandColor.mk "Ocean" ["#0077BE"] "ocean";
           BrandColor.mk "Banana" ["#FFE135"; "#3D2B1F"] "banana"]
          [VisualStyle.mk "Flat" "flat vector art" "flat"]
          [GraphicType.mk "Logo" "logo"])
       (BrandColor.mk "Banana" ["#FFE135"; "#3D2B1F"] "banana")
       (VisualStyle.mk "Flat" "flat vector art" "flat")
       (GraphicType.mk "Logo" "logo")
       _ _ _)))).
  - exists [BrandColor.mk "Ocean" ["#0077BE"] "ocean"], [].
    split; [reflexivity|]. split; [|reflexivity].
    constructor; [simpl; discriminate | constructor].
  - exists [], []. split; [reflexivity|]. split; [constructor | reflexivity].
  - exists [], []. split; [reflexivity|]. split; [constructor | reflexivity].
Defined.

(** C7. An id that matches no entry of its catalog makes the generation
    prompt use "standard colors" for the color list, "clean style" for the
    style description and "image" for the graphic type name; the refinement
    prompt uses the empty string for the style description and for the color
    list. Both builders return their text all the same. *)
Theorem missing_id_fallbacks :
  forall config context refinementPrompt,
    (Forall
       (fun c => BrandColor.id c <> GenerationConfig.colorSchemeId config)
       (GenerationContext.brandColors context) ->
     constructFullPrompt_colors config context = "standard colors" /\
     refineGraphic_colors config context = "") /\
    (Forall
       (fun s => VisualStyle.id s <> GenerationConfig.visualStyleId config)
       (GenerationContext.visualStyles context) ->
     constructFullPrompt_styleDesc config context = "clean style" /\
     refineGraphic_styleDesc config context = "") /\
    (Forall
       (fun t => GraphicType.id t <> GenerationConfig.graphicTypeId config)
       (GenerationContext.graphicTypes context) ->
     constructFullPrompt_typeName config context = "image") /\
    constructFullPrompt config context =
      fullPromptText (constructFullPrompt_typeName config context)
                     (constructFullPrompt_styleDesc config context)
                     (constructFullPrompt_colors config context)
                     (GenerationConfig.prompt config) /\
    fullRefinementPrompt refinementPrompt config context =
      fullRefinementPromptText refinementPrompt
        (refineGraphic_styleDesc config context)
        (refineGraphic_colors config context).
Proof.
  intros config context refinementPrompt.
  split; [|split; [|split; [|split]]].
  - intros H. apply findBrandColor_None in H.
    unfold constructFullPrompt_colors, refineGraphic_colors.
    now rewrite H.
  - intros H. apply findVisualStyle_None in H.
    unfold constructFullPrompt_styleDesc, refineGraphic_styleDesc.
    now rewrite H.
  - intros H. apply findGraphicType_None in H.
    unfold constructFullPrompt_typeName. now rewrite H.
  - apply constructFullPrompt_text.
  - apply fullRefinementPrompt_text.
Qed.

Lemma missing_id_fallbacks_witness :
  constructFullPrompt
    (GenerationConfig.mk "a banana mascot" "gone" "gone" "gone" "1:1")
    (GenerationContext.mk
       [BrandColor.mk "Ocean" ["#0077BE"] "ocean"]
       [VisualStyle.mk "Flat" "flat vector art" "flat"]
       [GraphicType.mk "Logo" "logo"])
  = fullPromptText "image" "clean style" "standard colors" "a banana mascot" /\
  fullRefinementPrompt "make it bluer"
    (GenerationConfig.mk "a banana mascot" "gone" "gone" "gone" "1:1")
    (GenerationContext.mk
       [BrandColor.mk "Ocean" ["#0077BE"] "ocean"]
       [VisualStyle.mk "Flat" "flat vector art" "flat"]
       [GraphicType.mk "Logo" "logo"])
  = fullRefinementPromptText "make it bluer" "" "".
Proof.
  pose (config :=
          GenerationConfig.mk "a banana mascot" "gone" "gone" "gone" "1:1").
  pose (context :=
          GenerationContext.mk
            [BrandColor.mk "Ocean" ["#0077BE"] "ocean"]
            [VisualStyle.mk "Flat" "flat vector art" "flat"]
            [GraphicType.mk "Logo" "logo"]).
  destruct (missing_id_fallbacks config context "make it bluer")
    as (Hcolors & Hstyle & Htype & Hgen & Href).
  destruct Hcolors as [Hc Hc'].
  { constructor; [simpl; discriminate | constructor]. }
  destruct Hstyle as [Hs Hs'].
  { constructor; [simpl; discriminate | constructor]. }
  assert (Ht : constructFullPrompt_typeName config context = "image").
  { apply Htype. constructor; [simpl; discriminate | constructor]. }
  split.
  - change (constructFullPrompt config context =
            fullPromptText "image" "clean style" "standard colors"
              "a banana mascot").
    rewrite Hgen, Hc, Hs, Ht. reflexivity.
  - change (fullRefinementPrompt "make it bluer" config context =
            fullRefinementPromptText "make it bluer" "" "").
    rewrite Href, Hc', Hs'. reflexivity.
Defined.

(** ** The request handlers of the UI *)

(** C8. A generation or refinement request that fails, for whatever reason,
    leaves the current image as it was, while the request is pending and
    after it has settled; a refinement with no current image changes
    nothing; and a handler stores a new image only when its call returned
    one. *)
Theorem failed_request_keeps_image :
  forall generateContent config context st,
    (forall e,
        generateGraphic generateContent config context = Throw e ->
        App.generatedImage (App.pending st) = App.generatedImage st /\
        App.generatedImage (App.handleGenerate generateContent config context st)
        = App.generatedImage st) /\
    (forall refinementText,
        (App.generatedImage st = None ->
         App.handleRefine generateContent config context refinementText st
         = st) /\
        (forall currentImage e,
            App.generatedImage st = Some currentImage ->
            refineGraphic generateContent currentImage refinementText
              config context = Throw e ->
            App.generatedImage
              (App.handleRefine generateContent config context refinementText st)
            = App.generatedImage st)) /\
    (forall result,
        generateGraphic generateContent config context = Ok result ->
        App.generatedImage (App.handleGenerate generateContent config context st)
        = Some result) /\
    (forall refinementText currentImage result,
        App.generatedImage st = Some currentImage ->
        refineGraphic generateContent currentImage refinementText
          config context = Ok result ->
        App.generatedImage
          (App.handleRefine generateContent config context refinementText st)
        = Some result).
Proof.
  intros generateContent config context st.
  split; [|split; [|split]].
  - intros e H. unfold App.handleGenerate, App.settle. rewrite H.
    split; reflexivity.
  - intros refinementText. split.
    + intros H. unfold App.handleRefine. now rewrite H.
    + intros currentImage e Hcur H. unfold App.handleRefine, App.settle.
      rewrite Hcur, H. simpl. now rewrite Hcur.
  - intros result H. unfold App.handleGenerate, App.settle. now rewrite H.
  - intros refinementText currentImage result Hcur H.
    unfold App.handleRefine, App.settle. now rewrite Hcur, H.
Qed.

Lemma failed_request_keeps_image_witness :
  App.generatedImage
    (App.handleGenerate
       (fun _ => Rejected (TypeError "Failed to fetch"))
       (GenerationConfig.mk "a banana mascot" "banana" "flat" "logo" "1:1")
       (GenerationContext.mk [] [] [])
       (App.mk
          (Some (GeneratedImage.mk "data:image/png;base64,QUJD" (Some "QUJD")
                   "image/png"))
          false None))
  = Some (GeneratedImage.mk "data:image/png;base64,QUJD" (Some "QUJD")
            "image/png") /\
  App.generatedImage
    (App.handleRefine
       (fun _ => Fulfilled (replyWith [Part.mk None (Some "I cannot create this.")]))
       (GenerationConfig.mk "a banana mascot" "banana" "flat" "logo" "1:1")
       (GenerationContext.mk [] [] [])
       "make it bluer"
       (App.mk
          (Some (GeneratedImage.mk "data:image/png;base64,QUJD" (Some "QUJD")
                   "image/png"))
          false None))
  = Some (GeneratedImage.mk "data:image/png;base64,QUJD" (Some "QUJD")
            "image/png").
Proof.
  pose (config :=
          GenerationConfig.mk "a banana mascot" "banana" "flat" "logo" "1:1").
  pose (context := GenerationContext.mk [] [] []).
  pose (image :=
          GeneratedImage.mk "data:image/png;base64,QUJD" (Some "QUJD")
            "image/png").
  pose (st := App.mk (Some image) false None).
  split.
  - exact (proj2
             (proj1 (failed_request_keeps_image
                       (fun _ => Rejected (TypeError "Failed to fetch"))
                       config context st)
                (Error "Failed to generate image. Please try again.")
                eq_refl)).
  - exact (proj2
             (proj1 (proj2 (failed_request_keeps_image
                              (fun _ => Fulfilled
                                 (replyWith
                                    [Part.mk None (Some "I cannot create this.")]))
                              config context st))
                "make it bluer")
             image
             (Error "Failed to refine image. Please try again.")
             eq_refl eq_refl).
Defined.

(** ** Further properties of the extractor *)

Section ExtractorFacts.

Lemma scanImagePart_Exists (parts : list Part.t) :
  (exists part, scanImagePart parts = Some part) <->
  Exists hasInlineData parts.
Proof.
  induction parts as [|p parts IH]; simpl.
  - split; [intros [part H]; discriminate | intros H; inversion H].
  - destruct (Part.inlineData p) as [b|] eqn:E.
    + split; [|eauto]. intros _. left. unfold hasInlineData. congruence.
    + rewrite IH. split; [auto|].
      intros H. inversion H as [? ? Hp | ]; subst; [|assumption].
      unfold hasInlineData in Hp. congruence.
Qed.

Lemma find_truthy_text (parts : list Part.t) (textPart : Part.t) :
  find (fun p => truthy (Part.text p)) parts = Some textPart ->
  exists text, Part.text textPart = Some text /\ text <> "".
Proof.
  intros H. apply find_some in H as [_ H].
  now apply truthy_text_spec in H.
Qed.

(** Every result comes from the first inline-data segment of the first
    candidate. *)
Lemma extract_Ok_inv response image :
  extractImageFromResponse response = Ok image ->
  exists candidate0 rest content parts imagePart inlineData,
    GenerateContentResponse.candidates response = Some (candidate0 :: rest) /\
    Candidate.content candidate0 = Some content /\
    Content.parts content = Some parts /\
    FirstSuch hasInlineData parts imagePart /\
    Part.inlineData imagePart = Some inlineData /\
    image =
      GeneratedImage.mk
        ("data:" ++ or_else (Blob.mimeType inlineData) "image/png"
                 ++ ";base64," ++ ToString (Blob.data inlineData))
        (Blob.data inlineData)
        (or_else (Blob.mimeType inlineData) "image/png").
Proof.
  unfold extractImageFromResponse.
  destruct (GenerateContentResponse.candidates response) as [[|c0 rest]|];
    try discriminate.
  destruct (Candidate.content c0) as [content|] eqn:Hcontent;
    try discriminate.
  destruct (Content.parts content) as [parts|] eqn:Hparts; try discriminate.
  destruct (scanImagePart parts) as [imagePart|] eqn:Hscan.
  - destruct (Part.inlineData imagePart) as [inlineData|] eqn:Hdata;
      try discriminate.
    intros [= <-]. apply scanImagePart_FirstSuch in Hscan.
    exists c0, rest, content, parts, imagePart, inlineData. auto 10.
  - destruct (find _ parts); discriminate.
Qed.

Lemma extract_Ok_WellFormed response image :
  extractImageFromResponse response = Ok image -> WellFormedImage image.
Proof.
  intros H. apply extract_Ok_inv in H.
  destruct H as (_ & _ & _ & _ & _ & inlineData & _ & _ & _ & _ & _ & ->).
  split; simpl; [reflexivity|]. apply or_else_nonempty. discriminate.
Qed.

(** A well-formed image handed back as an inline-data segment is extracted
    as that image again. *)
Lemma extract_WellFormed image later :
  WellFormedImage image ->
  extractImageFromResponse
    (replyWith
       (Part.mk (Some (Blob.mk (GeneratedImage.base64Data image)
                         (Some (GeneratedImage.mimeType image))))
                None :: later))
  = Ok image.
Proof.
  intros [Hurl Hmime].
  destruct image as [url data mime]; simpl in *.
  unfold extractImageFromResponse, replyWith; simpl.
  destruct mime as [|c mime]; [congruence|]. simpl.
  now rewrite Hurl.
Qed.

End ExtractorFacts.

(** X1. The extractor returns a result exactly when the first candidate has
    a content with a segment list in which some segment carries inline
    data; no other candidate and no property of that segment matters. *)
Theorem extract_succeeds_iff_inline_data :
  forall response,
    (exists image, extractImageFromResponse response = Ok image) <->
    (exists candidate0 rest content parts,
        GenerateContentResponse.candidates response
        = Some (candidate0 :: rest) /\
        Candidate.content candidate0 = Some content /\
        Content.parts content = Some parts /\
        Exists hasInlineData parts).
Proof.
  intros response. split.
  - intros [image H]. apply extract_Ok_inv in H.
    destruct H as (c0 & rest & content & parts & imagePart & inlineData
                   & Hc & Hcontent & Hparts & Hfirst & _).
    exists c0, rest, content, parts. repeat (split; [assumption|]).
    apply scanImagePart_Exists. exists imagePart.
    now apply scanImagePart_FirstSuch.
  - intros (c0 & rest & content & parts & Hc & Hcontent & Hparts & Hex).
    apply scanImagePart_Exists in Hex. destruct Hex as [imagePart Hscan].
    apply scanImagePart_FirstSuch in Hscan.
    assert (Hhas : hasInlineData imagePart)
      by (destruct Hscan as (_ & _ & _ & _ & H); exact H).
    unfold hasInlineData in Hhas.
    destruct (Part.inlineData imagePart) as [inlineData|] eqn:Hdata;
      [|congruence].
    eexists. rewrite (extract_with_parts _ _ _ _ _ Hc Hcontent Hparts).
    apply (extract_winning parts imagePart inlineData); assumption.
Qed.

Lemma extract_succeeds_iff_inline_data_witness :
  exists image,
    extractImageFromResponse
      (GenerateContentResponse.mk
         (Some [Candidate.mk
                  (Some (Content.mk
                           (Some [Part.mk None (Some "Here it is");
                                  Part.mk (Some (Blob.mk None None)) None])));
                Candidate.mk None]))
    = Ok image.
Proof.
  apply (proj2 (extract_succeeds_iff_inline_data _)).
  eexists _, _, _, _. repeat (split; [reflexivity|]).
  right. left. unfold hasInlineData; simpl. discriminate.
Defined.

(** X2. The diagnosis tells the shape of the reply. NoImageData is thrown
    exactly when the first candidate's segments hold neither inline data
    nor a non-empty text; ModelRefused with a given text exactly when they
    hold no inline data and that text is the first non-empty one. So the
    text of a ModelRefused is never empty. *)
Theorem extract_diagnosis_determines_shape :
  forall response,
    (extractImageFromResponse response = Throw NoImageData <->
     exists candidate0 rest content parts,
       GenerateContentResponse.candidates response
       = Some (candidate0 :: rest) /\
       Candidate.content candidate0 = Some content /\
       Content.parts content = Some parts /\
       Forall (fun p => ~ hasInlineData p) parts /\
       Forall (fun p => ~ hasNonEmptyText p) parts) /\
    (forall text,
        extractImageFromResponse response = Throw (ModelRefused text) <->
        exists candidate0 rest content parts textPart,
          GenerateContentResponse.candidates response
          = Some (candidate0 :: rest) /\
          Candidate.content candidate0 = Some content /\
          Content.parts content = Some parts /\
          Forall (fun p => ~ hasInlineData p) parts /\
          FirstSuch hasNonEmptyText parts textPart /\
          Part.text textPart = Some text) /\
    (forall text,
        extractImageFromResponse response = Throw (ModelRefused text) ->
        text <> "").
Proof.
  intros response.
  assert (Hrefused : forall text,
    extractImageFromResponse response = Throw (ModelRefused text) <->
    exists candidate0 rest content parts textPart,
      GenerateContentResponse.candidates response
      = Some (candidate0 :: rest) /\
      Candidate.content candidate0 = Some content /\
      Content.parts content = Some parts /\
      Forall (fun p => ~ hasInlineData p) parts /\
      FirstSuch hasNonEmptyText parts textPart /\
      Part.text textPart = Some text).
  { intros text. split.
    - unfold extractImageFromResponse, ModelRefused.
      destruct (GenerateContentResponse.candidates response)
        as [[|c0 rest]|]; try discriminate.
      destruct (Candidate.content c0) as [content|] eqn:Hcontent;
        try discriminate.
      destruct (Content.parts content) as [parts|] eqn:Hparts;
        try discriminate.
      destruct (scanImagePart parts) as [imagePart|] eqn:Hscan.
      + destruct (Part.inlineData imagePart); discriminate.
      + destruct (find _ parts) as [textPart|] eqn:Hfind; try discriminate.
        intros [= H].
        destruct (find_truthy_text _ _ Hfind) as (t & Ht & _).
        rewrite Ht in H; simpl in H; subst t.
        exists c0, rest, content, parts, textPart.
        repeat (split; [first [reflexivity | assumption]|]).
        split; [now apply scanImagePart_None|].
        split; [|assumption].
        now apply (find_FirstSuch _ _ truthy_text_spec).
    - intros (c0 & rest & content & parts & textPart
              & Hc & Hcontent & Hparts & Hnone & Hfirst & Htext).
      rewrite (extract_with_parts _ _ _ _ _ Hc Hcontent Hparts).
      apply scanImagePart_None in Hnone.
      apply (find_FirstSuch _ _ truthy_text_spec) in Hfirst.
      unfold extractImageFromResponse, replyWith; simpl.
      now rewrite Hnone, Hfirst, Htext. }
  split; [|split; [exact Hrefused|]].
  - split.
    + unfold extractImageFromResponse, NoImageData.
      destruct (GenerateContentResponse.candidates response)
        as [[|c0 rest]|]; try discriminate.
      destruct (Candidate.content c0) as [content|] eqn:Hcontent;
        try discriminate.
      destruct (Content.parts content) as [parts|] eqn:Hparts;
        try discriminate.
      destruct (scanImagePart parts) as [imagePart|] eqn:Hscan.
      * destruct (Part.inlineData imagePart); discriminate.
      * destruct (find _ parts) as [textPart|] eqn:Hfind; try discriminate.
        intros _. exists c0, rest, content, parts.
        repeat (split; [first [reflexivity | assumption]|]).
        split; [now apply scanImagePart_None|].
        now apply (find_None_Forall _ _ truthy_text_spec).
    + intros (c0 & rest & content & parts
              & Hc & Hcontent & Hparts & Hnone & Hnotext).
      rewrite (extract_with_parts _ _ _ _ _ Hc Hcontent Hparts).
      apply scanImagePart_None in Hnone.
      apply (find_None_Forall _ _ truthy_text_spec) in Hnotext.
      unfold extractImageFromResponse, replyWith; simpl.
      now rewrite Hnone, Hnotext.
  - intros text H. apply Hrefused in H.
    destruct H as (c0 & rest & content & parts & textPart
                   & _ & _ & _ & _ & Hfirst & Htext).
    destruct Hfirst as (before & later & _ & _ & t & Ht & Hne). congruence.
Qed.

Lemma extract_diagnosis_determines_shape_witness :
  "I cannot create this." <> "".
Proof.
  apply (proj2 (proj2 (extract_diagnosis_determines_shape
                         (replyWith
                            [Part.mk None (Some "");
                             Part.mk None (Some "I cannot create this.")])))).
  reflexivity.
Defined.

(** ** Further properties of the two service calls *)

(** X3. [generateGraphic] returns an image exactly when the call, made
    with the model id, the generation prompt as the one text segment and the
    configured aspect ratio, is fulfilled with a reply from which the
    extractor returns that image; the image is then well formed; and every
    failure, of the call or of the extractor, reaches the caller as the one
    message "Failed to generate image. Please try again.". *)
Theorem generateGraphic_outcome :
  forall generateContent config context,
    (forall image,
        generateGraphic generateContent config context = Ok image <->
        exists response,
          generateContent (generateRequest config context)
          = Fulfilled response /\
          extractImageFromResponse response = Ok image) /\
    (forall image,
        generateGraphic generateContent config context = Ok image ->
        WellFormedImage image) /\
    (forall e,
        generateGraphic generateContent config context = Throw e ->
        e = Error generateFailure).
Proof.
  intros generateContent config context.
  assert (Hiff : forall image,
    generateGraphic generateContent config context = Ok image <->
    exists response,
      generateContent (generateRequest config context) = Fulfilled response /\
      extractImageFromResponse response = Ok image).
  { intros image. unfold generateGraphic, generateRequest.
    unfold try_catch, bind, await.
    destruct (generateContent _) as [response|reason].
    - destruct (extractImageFromResponse response) as [image'|e] eqn:E.
      + split.
        * intros [= <-]. eauto.
        * intros (r & [= <-] & H). congruence.
      + split; [discriminate|].
        intros (r & [= <-] & H). congruence.
    - split; [discriminate | intros (r & H & _); discriminate]. }
  split; [exact Hiff|split].
  - intros image H. apply Hiff in H. destruct H as (response & _ & H).
    exact (extract_Ok_WellFormed _ _ H).
  - intros e. apply generateGraphic_throws_fixed.
Qed.

Lemma generateGraphic_outcome_witness :
  Error "Failed to generate image. Please try again." = Error generateFailure.
Proof.
  exact (proj2 (proj2 (generateGraphic_outcome
                         (fun _ => Fulfilled (replyWith []))
                         (GenerationConfig.mk "a banana" "a" "b" "c" "1:1")
                         (GenerationContext.mk [] [] [])))
           (Error "Failed to generate image. Please try again.") eq_refl).
Defined.

(** X4. [refineGraphic] returns an image exactly when the call, made with
    the model id, the current image's data and MIME type as an inline-data
    segment followed by the refinement prompt as a text segment, and the
    configured aspect ratio, is fulfilled with a reply from which the
    extractor returns that image; the image is then well formed; and every
    failure reaches the caller as the one message "Failed to refine image.
    Please try again.". *)
Theorem refineGraphic_outcome :
  forall generateContent currentImage refinementPrompt config context,
    (forall image,
        refineGraphic generateContent currentImage refinementPrompt
          config context = Ok image <->
        exists response,
          generateContent
            (refineRequest currentImage refinementPrompt config context)
          = Fulfilled response /\
          extractImageFromResponse response = Ok image) /\
    (forall image,
        refineGraphic generateContent currentImage refinementPrompt
          config context = Ok image ->
        WellFormedImage image) /\
    (forall e,
        refineGraphic generateContent currentImage refinementPrompt
          config context = Throw e ->
        e = Error refineFailure).
Proof.
  intros generateContent currentImage refinementPrompt config context.
  assert (Hiff : forall image,
    refineGraphic generateContent currentImage refinementPrompt
      config context = Ok image <->
    exists response,
      generateContent
        (refineRequest currentImage refinementPrompt config context)
      = Fulfilled response /\
      extractImageFromResponse response = Ok image).
  { intros image. unfold refineGraphic, refineRequest.
    unfold try_catch, bind, await.
    destruct (generateContent _) as [response|reason].
    - destruct (extractImageFromResponse response) as [image'|e] eqn:E.
      + split.
        * intros [= <-]. eauto.
        * intros (r & [= <-] & H). congruence.
      + split; [discriminate|].
        intros (r & [= <-] & H). congruence.
    - split; [discriminate | intros (r & H & _); discriminate]. }
  split; [exact Hiff|split].
  - intros image H. apply Hiff in H. destruct H as (response & _ & H).
    exact (extract_Ok_WellFormed _ _ H).
  - intros e. apply refineGraphic_throws_fixed.
Qed.

Lemma refineGraphic_outcome_witness :
  Error "Failed to refine image. Please try again." = Error refineFailure.
Proof.
  exact (proj2 (proj2 (refineGraphic_outcome
                         (fun _ => Rejected (TypeError "Failed to fetch"))
                         (GeneratedImage.mk "data:image/png;base64,QUJD"
                            (Some "QUJD") "image/png")
                         "make it bluer"
                         (GenerationConfig.mk "a banana" "a" "b" "c" "1:1")
                         (GenerationContext.mk [] [] [])))
           (Error "Failed to refine image. Please try again.") eq_refl).
Defined.

(** X5. Round trip through a refinement. When the API answers with the very
    segments it was sent, [refineGraphic] returns the current image
    unchanged if that image is well formed, as every image the extractor
    returns is; and only then. *)
Theorem refine_echo_round_trip :
  forall currentImage refinementPrompt config context,
    (refineGraphic echo currentImage refinementPrompt config context
     = Ok currentImage <->
     WellFormedImage currentImage) /\
    (forall response,
        extractImageFromResponse response = Ok currentImage ->
        refineGraphic echo currentImage refinementPrompt config context
        = Ok currentImage).
Proof.
  intros currentImage refinementPrompt config context.
  assert (Hback : WellFormedImage currentImage ->
    refineGraphic echo currentImage refinementPrompt config context
    = Ok currentImage).
  { intros H.
    cbv [refineGraphic echo try_catch bind await
         GenerateContentParameters.contents_parts].
    rewrite extract_WellFormed; [reflexivity | exact H]. }
  split; [split; [|exact Hback]|].
  - cbv [refineGraphic echo try_catch bind await
         GenerateContentParameters.contents_parts].
    destruct (extractImageFromResponse _) as [image|e] eqn:E;
      [|discriminate].
    intros [= ->]. exact (extract_Ok_WellFormed _ _ E).
  - intros response H. apply Hback. exact (extract_Ok_WellFormed _ _ H).
Qed.

Lemma refine_echo_round_trip_witness :
  refineGraphic echo
    (GeneratedImage.mk "data:image/png;base64,undefined" None "image/png")
    "make it bluer"
    (GenerationConfig.mk "a banana" "a" "b" "c" "1:1")
    (GenerationContext.mk [] [] [])
  = Ok (GeneratedImage.mk "data:image/png;base64,undefined" None "image/png").
Proof.
  exact (proj2 (refine_echo_round_trip
                  (GeneratedImage.mk "data:image/png;base64,undefined" None
                     "image/png")
                  "make it bluer"
                  (GenerationConfig.mk "a banana" "a" "b" "c" "1:1")
                  (GenerationContext.mk [] [] []))
           (replyWith [Part.mk (Some (Blob.mk None (Some ""))) None])
           eq_refl).
Defined.

(** ** Further properties of the prompt builders *)

Section CatalogAppendFacts.

Context {A : Type} (f : A -> bool).

Lemma find_app (l more : list A) :
  find f (l ++ more) =
  match find f l with
  | Some x => Some x
  | None => find f more
  end.
Proof.
  induction l as [|y l IH]; simpl; [reflexivity|].
  destruct (f y); auto.
Qed.

Lemma find_Exists (P : A -> Prop) (l : list A) :
  (forall y, f y = true <-> P y) ->
  Exists P l -> exists x, find f l = Some x.
Proof.
  intros Hf H. induction H as [y l Hy | y l _ IH]; simpl.
  - apply Hf in Hy. rewrite Hy. eauto.
  - destruct (f y); eauto.
Qed.

Lemma find_app_stable (P : A -> Prop) (l more : list A) :
  (forall y, f y = true <-> P y) ->
  Exists P l \/ Forall (fun y => ~ P y) more ->
  find f (l ++ more) = find f l.
Proof.
  intros Hf H. rewrite find_app. destruct H as [H | H].
  - destruct (find_Exists P l Hf H) as [x ->]. reflexivity.
  - apply (find_None_Forall f P Hf) in H. rewrite H.
    destruct (find f l); reflexivity.
Qed.

End CatalogAppendFacts.

(** X6. When the color scheme and the style of the configuration resolve,
    the refinement prompt starts with "Edit this image.", contains the
    refinement text as "Request: <text>.", the style description in
    parentheses and the colors joined by ", " in parentheses, and has white
    space at neither end. *)
Theorem fullRefinementPrompt_contains :
  forall refinementPrompt config context colorScheme style,
    FirstSuch
      (fun c => BrandColor.id c = GenerationConfig.colorSchemeId config)
      (GenerationContext.brandColors context) colorScheme ->
    FirstSuch
      (fun s => VisualStyle.id s = GenerationConfig.visualStyleId config)
      (GenerationContext.visualStyles context) style ->
    let prompt := fullRefinementPrompt refinementPrompt config context in
    startsWith prompt "Edit this image." = true /\
    Substring ("Request: " ++ refinementPrompt ++ ".") prompt /\
    Substring ("(" ++ VisualStyle.description style ++ ")") prompt /\
    Substring ("(" ++ join (BrandColor.colors colorScheme) ", " ++ ")") prompt /\
    Trimmed prompt.
Proof.
  intros refinementPrompt config context colorScheme style Hcolor Hstyle prompt.
  assert (Htrim : Trimmed prompt) by apply trim_Trimmed.
  subst prompt. revert Htrim. rewrite fullRefinementPrompt_text.
  unfold refineGraphic_styleDesc, refineGraphic_colors.
  apply findBrandColor_FirstSuch in Hcolor.
  apply findVisualStyle_FirstSuch in Hstyle.
  rewrite Hcolor, Hstyle. intros Htrim.
  unfold fullRefinementPromptText, Substring.
  split; [|split; [|split; [|split]]].
  - apply startsWith_spec. eexists. reflexivity.
  - exists ("Edit this image." ++ LF ++ "    "). eexists.
    repeat rewrite append_assoc. reflexivity.
  - exists ("Edit this image." ++ LF ++ "    Request: " ++ refinementPrompt
              ++ "." ++ LF ++ "    Maintain the existing style ").
    eexists. repeat rewrite append_assoc. reflexivity.
  - exists ("Edit this image." ++ LF ++ "    Request: " ++ refinementPrompt
              ++ "." ++ LF ++ "    Maintain the existing style ("
              ++ VisualStyle.description style ++ ") and color palette ").
    eexists. repeat rewrite append_assoc. reflexivity.
  - exact Htrim.
Qed.

Lemma fullRefinementPrompt_contains_witness :
  Substring "(#FFE135, #3D2B1F)"
    (fullRefinementPrompt "make it bluer"
       (GenerationConfig.mk "a banana mascot" "banana" "flat" "logo" "1:1")
       (GenerationContext.mk
          [BrandColor.mk "Banana" ["#FFE135"; "#3D2B1F"] "banana"]
          [VisualStyle.mk "Flat" "flat vector art" "flat"]
          [])).
Proof.
  refine (proj1 (proj2 (proj2 (proj2
    (fullRefinementPrompt_contains "make it bluer"
       (GenerationConfig.mk "a banana mascot" "banana" "flat" "logo" "1:1")
       (GenerationContext.mk
          [BrandColor.mk "Banana" ["#FFE135"; "#3D2B1F"] "banana"]
          [VisualStyle.mk "Flat" "flat vector art" "flat"]
          [])
       (BrandColor.mk "Banana" ["#FFE135"; "#3D2B1F"] "banana")
       (VisualStyle.mk "Flat" "flat vector art" "flat")
       _ _))))).
  - exists [], []. split; [reflexivity|]. split; [constructor | reflexivity].
  - exists [], []. split; [reflexivity|]. split; [constructor | reflexivity].
Defined.

(** X7. Entries appended to a catalog leave both prompts unchanged, for
    each catalog whose id already resolves or whose new entries all have
    another id than the configured one. *)
Theorem appended_entries_keep_prompts :
  forall config context moreColors moreStyles moreTypes refinementPrompt,
    Exists (fun c => BrandColor.id c = GenerationConfig.colorSchemeId config)
      (GenerationContext.brandColors context) \/
    Forall (fun c => BrandColor.id c <> GenerationConfig.colorSchemeId config)
      moreColors ->
    Exists (fun s => VisualStyle.id s = GenerationConfig.visualStyleId config)
      (GenerationContext.visualStyles context) \/
    Forall (fun s => VisualStyle.id s <> GenerationConfig.visualStyleId config)
      moreStyles ->
    Exists (fun t => GraphicType.id t = GenerationConfig.graphicTypeId config)
      (GenerationContext.graphicTypes context) \/
    Forall (fun t => GraphicType.id t <> GenerationConfig.graphicTypeId config)
      moreTypes ->
    let context' :=
      GenerationContext.mk
        (GenerationContext.brandColors context ++ moreColors)
        (GenerationContext.visualStyles context ++ moreStyles)
        (GenerationContext.graphicTypes context ++ moreTypes) in
    constructFullPrompt config context' = constructFullPrompt config context /\
    fullRefinementPrompt refinementPrompt config context'
    = fullRefinementPrompt refinementPrompt config context.
Proof.
  intros config context moreColors moreStyles moreTypes refinementPrompt
         Hcolors Hstyles Htypes context'.
  assert (Hc : findBrandColor (GenerationConfig.colorSchemeId config)
                 (GenerationContext.brandColors context ++ moreColors)
               = findBrandColor (GenerationConfig.colorSchemeId config)
                   (GenerationContext.brandColors context)).
  { apply (find_app_stable _ _ _ _ (fun c => String.eqb_eq _ _) Hcolors). }
  assert (Hs : findVisualStyle (GenerationConfig.visualStyleId config)
                 (GenerationContext.visualStyles context ++ moreStyles)
               = findVisualStyle (GenerationConfig.visualStyleId config)
                   (GenerationContext.visualStyles context)).
  { apply (find_app_stable _ _ _ _ (fun s => String.eqb_eq _ _) Hstyles). }
  assert (Ht : findGraphicType (GenerationConfig.graphicTypeId config)
                 (GenerationContext.graphicTypes context ++ moreTypes)
               = findGraphicType (GenerationConfig.graphicTypeId config)
                   (GenerationContext.graphicTypes context)).
  { apply (find_app_stable _ _ _ _ (fun t => String.eqb_eq _ _) Htypes). }
  unfold constructFullPrompt, fullRefinementPrompt,
    constructFullPrompt_colors, constructFullPrompt_styleDesc,
    constructFullPrompt_typeName, refineGraphic_colors,
    refineGraphic_styleDesc, context'. simpl.
  rewrite Hc, Hs, Ht. split; reflexivity.
Qed.

Lemma appended_entries_keep_prompts_witness :
  constructFullPrompt
    (GenerationConfig.mk "a banana mascot" "banana" "gone" "logo" "1:1")
    (GenerationContext.mk
       ([BrandColor.mk "Banana" ["#FFE135"] "banana"]
          ++ [BrandColor.mk "Other banana" ["#000000"] "banana"])
       ([] ++ [VisualStyle.mk "Flat" "flat vector art" "flat"])
       ([GraphicType.mk "Logo" "logo"] ++ []))
  = constructFullPrompt
      (GenerationConfig.mk "a banana mascot" "banana" "gone" "logo" "1:1")
      (GenerationContext.mk
         [BrandColor.mk "Banana" ["#FFE135"] "banana"]
         []
         [GraphicType.mk "Logo" "logo"]).
Proof.
  refine (proj1
    (appended_entries_keep_prompts
       (GenerationConfig.mk "a banana mascot" "banana" "gone" "logo" "1:1")
       (GenerationContext.mk
          [BrandColor.mk "Banana" ["#FFE135"] "banana"]
          []
          [GraphicType.mk "Logo" "logo"])
       [BrandColor.mk "Other banana" ["#000000"] "banana"]
       [VisualStyle.mk "Flat" "flat vector art" "flat"]
       []
       "make it bluer" _ _ _)).
  - left. left. reflexivity.
  - right. constructor; [simpl; discriminate | constructor].
  - left. left. reflexivity.
Defined.

(** X8. The fallback for the colors is for a missing scheme only. A color
    scheme that resolves with an empty list of colors gives both prompts an
    empty color list, and one with a single color gives that color with no
    separator. *)
Theorem short_color_lists :
  forall config context colorScheme,
    FirstSuch
      (fun c => BrandColor.id c = GenerationConfig.colorSchemeId config)
      (GenerationContext.brandColors context) colorScheme ->
    (BrandColor.colors colorScheme = [] ->
     constructFullPrompt_colors config context = "" /\
     refineGraphic_colors config context = "" /\
     Substring ("Strictly use these colors: ." ++ LF)
       (constructFullPrompt config context)) /\
    (forall color,
        BrandColor.colors colorScheme = [color] ->
        constructFullPrompt_colors config context = color /\
        refineGraphic_colors config context = color).
Proof.
  intros config context colorScheme Hcolor.
  apply findBrandColor_FirstSuch in Hcolor.
  split.
  - intros Hempty.
    assert (H : constructFullPrompt_colors config context = "").
    { unfold constructFullPrompt_colors. now rewrite Hcolor, Hempty. }
    split; [exact H|]. split.
    + unfold refineGraphic_colors. now rewrite Hcolor, Hempty.
    + rewrite constructFullPrompt_text, H.
      unfold fullPromptText, Substring.
      exists ("Create a " ++ constructFullPrompt_typeName config context
                ++ "." ++ LF ++ "    Visual Style: "
                ++ constructFullPrompt_styleDesc config context ++ "."
                ++ LF ++ "    Color Palette: ").
      eexists. repeat rewrite append_assoc. reflexivity.
  - intros color Hone.
    unfold constructFullPrompt_colors, refineGraphic_colors.
    rewrite Hcolor, Hone. split; reflexivity.
Qed.

Lemma short_color_lists_witness :
  constructFullPrompt_colors
    (GenerationConfig.mk "a banana mascot" "blank" "flat" "logo" "1:1")
    (GenerationContext.mk [BrandColor.mk "Blank" [] "blank"] [] [])
  = "" /\
  refineGraphic_colors
    (GenerationConfig.mk "a banana mascot" "mono" "flat" "logo" "1:1")
    (GenerationContext.mk [BrandColor.mk "Mono" ["#FFE135"] "mono"] [] [])
  = "#FFE135".
Proof.
  split.
  - refine (proj1 (proj1
      (short_color_lists
         (GenerationConfig.mk "a banana mascot" "blank" "flat" "logo" "1:1")
         (GenerationContext.mk [BrandColor.mk "Blank" [] "blank"] [] [])
         (BrandColor.mk "Blank" [] "blank") _) eq_refl)).
    exists [], []. split; [reflexivity|]. split; [constructor | reflexivity].
  - refine (proj2 (proj2
      (short_color_lists
         (GenerationConfig.mk "a banana mascot" "mono" "flat" "logo" "1:1")
         (GenerationContext.mk [BrandColor.mk "Mono" ["#FFE135"] "mono"] [] [])
         (BrandColor.mk "Mono" ["#FFE135"] "mono") _) "#FFE135" eq_refl)).
    exists [], []. split; [reflexivity|]. split; [constructor | reflexivity].
Defined.

(** ** Further properties of the request handlers *)

(** X9. However its call settles, [handleGenerate] ends with the
    in-progress flag cleared, and either with the new image stored and no
    error, or with the image as it was and the error "Failed to generate
    image. Please try again."; while the request is pending the flag is set
    and the error cleared. *)
Theorem handleGenerate_outcome :
  forall generateContent config context st,
    App.isGenerating (App.pending st) = true /\
    App.error (App.pending st) = None /\
    App.isGenerating (App.handleGenerate generateContent config context st)
    = false /\
    ((exists image,
         generateGraphic generateContent config context = Ok image /\
         App.generatedImage
           (App.handleGenerate generateContent config context st)
         = Some image /\
         App.error (App.handleGenerate generateContent config context st)
         = None) \/
     (generateGraphic generateContent config context
      = Throw (Error generateFailure) /\
      App.generatedImage
        (App.handleGenerate generateContent config context st)
      = App.generatedImage st /\
      App.error (App.handleGenerate generateContent config context st)
      = Some generateFailure)).
Proof.
  intros generateContent config context st.
  split; [reflexivity|]. split; [reflexivity|].
  unfold App.handleGenerate, App.settle.
  destruct (generateGraphic generateContent config context)
    as [image|e] eqn:E.
  - split; [reflexivity|]. left. exists image. auto.
  - apply generateGraphic_throws_fixed in E. subst e.
    split; [reflexivity|]. right. auto.
Qed.

(** X10. [handleRefine] does nothing at all when there is no current
    image. With a current image it ends with the in-progress flag cleared,
    and either with the new image stored and no error, or with the image as
    it was and the error "Failed to refine image. Please try again.". *)
Theorem handleRefine_outcome :
  forall generateContent config context refinementText st,
    (App.generatedImage st = None ->
     App.handleRefine generateContent config context refinementText st = st) /\
    (forall currentImage,
        App.generatedImage st = Some currentImage ->
        App.isGenerating
          (App.handleRefine generateContent config context refinementText st)
        = false /\
        ((exists image,
             refineGraphic generateContent currentImage refinementText
               config context = Ok image /\
             App.generatedImage
               (App.handleRefine generateContent config context
                  refinementText st)
             = Some image /\
             App.error
               (App.handleRefine generateContent config context
                  refinementText st)
             = None) \/
         (refineGraphic generateContent currentImage refinementText
            config context = Throw (Error refineFailure) /\
          App.generatedImage
            (App.handleRefine generateContent config context
               refinementText st)
          = Some currentImage /\
          App.error
            (App.handleRefine generateContent config context
               refinementText st)
          = Some refineFailure))).
Proof.
  intros generateContent config context refinementText st. split.
  - intros H. unfold App.handleRefine. now rewrite H.
  - intros currentImage Hcur. unfold App.handleRefine, App.settle.
    rewrite Hcur.
    destruct (refineGraphic generateContent currentImage refinementText
                config context) as [image|e] eqn:E.
    + split; [reflexivity|]. left. exists image. auto.
    + apply refineGraphic_throws_fixed in E. subst e.
      split; [reflexivity|]. right. simpl. auto.
Qed.

Lemma handleRefine_outcome_witness :
  App.handleRefine (fun _ => Fulfilled (replyWith []))
    (GenerationConfig.mk "a banana" "a" "b" "c" "1:1")
    (GenerationContext.mk [] [] [])
    "make it bluer" (App.mk None true (Some "stale"))
  = App.mk None true (Some "stale") /\
  App.isGenerating
    (App.handleRefine (fun _ => Fulfilled (replyWith []))
       (GenerationConfig.mk "a banana" "a" "b" "c" "1:1")
       (GenerationContext.mk [] [] [])
       "make it bluer"
       (App.mk
          (Some (GeneratedImage.mk "data:image/png;base64,QUJD" (Some "QUJD")
                   "image/png"))
          true None))
  = false.
Proof.
  split.
  - exact (proj1 (handleRefine_outcome (fun _ => Fulfilled (replyWith []))
                    (GenerationConfig.mk "a banana" "a" "b" "c" "1:1")
                    (GenerationContext.mk [] [] [])
                    "make it bluer" (App.mk None true (Some "stale")))
             eq_refl).
  - exact (proj1
             (proj2 (handleRefine_outcome (fun _ => Fulfilled (replyWith []))
                       (GenerationConfig.mk "a banana" "a" "b" "c" "1:1")
                       (GenerationContext.mk [] [] [])
                       "make it bluer"
                       (App.mk
                          (Some (GeneratedImage.mk
                                   "data:image/png;base64,QUJD" (Some "QUJD")
                                   "image/png"))
                          true None))
                _ eq_refl)).
Defined.

(** ** The state over any sequence of actions *)

Section RunFacts.

Lemma run_cons (a : action) (actions : list action) (st : App.state) :
  run (a :: actions) st = run actions (perform a st).
Proof. reflexivity. Qed.

Lemma handleGenerate_cases generateContent config context st :
  (exists image,
      generateGraphic generateContent config context = Ok image /\
      App.handleGenerate generateContent config context st
      = App.mk (Some image) false None) \/
  App.handleGenerate generateContent config context st
  = App.mk (App.generatedImage st) false (Some generateFailure).
Proof.
  unfold App.handleGenerate, App.settle.
  destruct (generateGraphic generateContent config context)
    as [image|e] eqn:E.
  - left. exists image. auto.
  - apply generateGraphic_throws_fixed in E. subst e. right. reflexivity.
Qed.

Lemma handleRefine_cases generateContent config context refinementText st :
  App.handleRefine generateContent config context refinementText st = st \/
  (exists currentImage image,
      App.generatedImage st = Some currentImage /\
      refineGraphic generateContent currentImage refinementText
        config context = Ok image /\
      App.handleRefine generateContent config context refinementText st
      = App.mk (Some image) false None) \/
  (App.generatedImage st <> None /\
   App.handleRefine generateContent config context refinementText st
   = App.mk (App.generatedImage st) false (Some refineFailure)).
Proof.
  unfold App.handleRefine, App.settle.
  destruct (App.generatedImage st) as [currentImage|] eqn:Hcur; [|auto].
  destruct (refineGraphic generateContent currentImage refinementText
              config context) as [image|e] eqn:E.
  - right. left. exists currentImage, image. auto.
  - apply refineGraphic_throws_fixed in E. subst e.
    right. right. split; [discriminate|].
    unfold App.pending, App.setIsGenerating, App.setError; simpl.
    now rewrite Hcur.
Qed.

Lemma generateGraphic_WellFormed generateContent config context image :
  generateGraphic generateContent config context = Ok image ->
  WellFormedImage image.
Proof.
  unfold generateGraphic, try_catch, bind, await.
  destruct (generateContent _) as [response|reason]; [|discriminate].
  destruct (extractImageFromResponse response) as [image'|e] eqn:E;
    [|discriminate].
  intros [= <-]. exact (extract_Ok_WellFormed _ _ E).
Qed.

Lemma refineGraphic_WellFormed
  generateContent currentImage refinementPrompt config context image :
  refineGraphic generateContent currentImage refinementPrompt config context
  = Ok image ->
  WellFormedImage image.
Proof.
  unfold refineGraphic, try_catch, bind, await.
  destruct (generateContent _) as [response|reason]; [|discriminate].
  destruct (extractImageFromResponse response) as [image'|e] eqn:E;
    [|discriminate].
  intros [= <-]. exact (extract_Ok_WellFormed _ _ E).
Qed.

Lemma perform_Settled (a : action) (st : App.state) :
  Settled st -> Settled (perform a st).
Proof.
  intros (Hflag & Himage & Herror).
  destruct a as [api config context | api config context text | ];
    cbn [perform].
  - destruct (handleGenerate_cases api config context st)
      as [(image & Hok & ->) | ->]; unfold Settled; simpl.
    + split; [reflexivity|]. split; [|auto].
      intros image' [= <-]. exact (generateGraphic_WellFormed _ _ _ _ Hok).
    + auto.
  - destruct (handleRefine_cases api config context text st)
      as [-> | [(cur & image & Hcur & Hok & ->) | (_ & ->)]];
      unfold Settled; simpl.
    + auto.
    + split; [reflexivity|]. split; [|auto].
      intros image' [= <-].
      exact (refineGraphic_WellFormed _ _ _ _ _ _ Hok).
    + auto.
  - unfold dismissError, Settled; simpl. auto.
Qed.

Lemma run_Settled (actions : list action) (st : App.state) :
  Settled st -> Settled (run actions st).
Proof.
  revert st. induction actions as [|a actions IH]; intros st H.
  - exact H.
  - rewrite run_cons. apply IH, perform_Settled, H.
Qed.

Lemma initialState_Settled : Settled initialState.
Proof.
  unfold Settled, initialState; simpl.
  split; [reflexivity|]. split; [discriminate | auto].
Qed.

Lemma perform_keeps_image (a : action) (st : App.state) :
  App.generatedImage st <> None ->
  App.generatedImage (perform a st) <> None.
Proof.
  intros H.
  destruct a as [api config context | api config context text | ];
    cbn [perform].
  - destruct (handleGenerate_cases api config context st)
      as [(image & _ & ->) | ->]; simpl; [discriminate | exact H].
  - destruct (handleRefine_cases api config context text st)
      as [-> | [(cur & image & _ & _ & ->) | (_ & ->)]]; simpl;
      [exact H | discriminate | exact H].
  - exact H.
Qed.

End RunFacts.

(** X11. Starting from the initial state, whatever requests are made and
    however they settle, the current image, when there is one, is well
    formed: its [imageUrl] is the data URI of its [mimeType] and
    [base64Data], and its [mimeType] is not empty. *)
Theorem current_image_is_well_formed :
  forall actions image,
    App.generatedImage (run actions initialState) = Some image ->
    GeneratedImage.imageUrl image =
      "data:" ++ GeneratedImage.mimeType image ++ ";base64,"
              ++ ToString (GeneratedImage.base64Data image) /\
    GeneratedImage.mimeType image <> "".
Proof.
  intros actions image H.
  destruct (run_Settled actions _ initialState_Settled) as (_ & Himage & _).
  exact (Himage image H).
Qed.

Lemma current_image_is_well_formed_witness :
  "image/png" <> "".
Proof.
  exact (proj2
    (current_image_is_well_formed
       [Generate
          (fun _ => Fulfilled
             (replyWith [Part.mk (Some (Blob.mk (Some "QUJD") None)) None]))
          (GenerationConfig.mk "a banana" "a" "b" "c" "1:1")
          (GenerationContext.mk [] [] []);
        Refine (fun _ => Rejected (TypeError "Failed to fetch"))
          (GenerationConfig.mk "a banana" "a" "b" "c" "1:1")
          (GenerationContext.mk [] [] [])
          "make it bluer"]
       (GeneratedImage.mk "data:image/png;base64,QUJD" (Some "QUJD")
          "image/png")
       eq_refl)).
Defined.

(** X12. Starting from the initial state, after any sequence of settled
    requests and dismissals the in-progress flag is clear and the error is
    absent or one of the two messages of the service; the fallbacks of the
    handlers, "An unexpected error occurred." and "Failed to refine
    image.", are never shown, and the toast is shown exactly when there is
    an error. *)
Theorem shown_error_is_a_service_message :
  forall actions,
    let st := run actions initialState in
    App.isGenerating st = false /\
    (App.error st = None \/
     App.error st = Some "Failed to generate image. Please try again." \/
     App.error st = Some "Failed to refine image. Please try again.") /\
    App.error st <> Some "An unexpected error occurred." /\
    App.error st <> Some "Failed to refine image." /\
    (errorToastShown st = true <-> App.error st <> None).
Proof.
  intros actions st.
  destruct (run_Settled actions _ initialState_Settled)
    as (Hflag & _ & Herror).
  fold st in Hflag, Herror.
  split; [exact Hflag|]. split; [exact Herror|].
  unfold errorToastShown.
  destruct Herror as [-> | [-> | ->]]; simpl;
    (split; [discriminate|]); (split; [discriminate|]);
    split; congruence.
Qed.

(** X13. No action removes the current image: once there is one, there is
    one after any further sequence of requests and dismissals, whether the
    requests succeed or fail. *)
Theorem image_once_set_stays :
  forall actions st,
    App.generatedImage st <> None ->
    App.generatedImage (run actions st) <> None.
Proof.
  intros actions. induction actions as [|a actions IH]; intros st H.
  - exact H.
  - rewrite run_cons. apply IH, perform_keeps_image, H.
Qed.

Lemma image_once_set_stays_witness :
  App.generatedImage
    (run [Generate (fun _ => Fulfilled (replyWith []))
            (GenerationConfig.mk "a banana" "a" "b" "c" "1:1")
            (GenerationContext.mk [] [] []);
          DismissError]
       (App.mk
          (Some (GeneratedImage.mk "data:image/png;base64,QUJD" (Some "QUJD")
                   "image/png"))
          false None))
  <> None.
Proof.
  apply image_once_set_stays. simpl. discriminate.
Defined.

(** X14. Until a generation has been requested nothing changes: from the
    initial state, refinements and dismissals alone leave the state as it
    is, however the API would have answered. *)
Theorem nothing_changes_before_generate :
  forall actions,
    forallb (fun a => negb (isGenerate a)) actions = true ->
    run actions initialState = initialState.
Proof.
  induction actions as [|a actions IH]; [reflexivity|].
  intros H. cbn [forallb] in H. apply andb_true_iff in H as [Ha Hrest].
  rewrite run_cons.
  destruct a as [api config context | api config context text | ];
    [discriminate Ha | |]; exact (IH Hrest).
Qed.

Lemma nothing_changes_before_generate_witness :
  run [Refine
         (fun _ => Fulfilled
            (replyWith [Part.mk (Some (Blob.mk (Some "QUJD") None)) None]))
         (GenerationConfig.mk "a banana" "a" "b" "c" "1:1")
         (GenerationContext.mk [] [] [])
         "make it bluer";
       DismissError]
    initialState
  = initialState.
Proof.
  apply nothing_changes_before_generate. reflexivity.
Defined.
